(** * File integrity analyzer: a shallow embedding of [script.py] and
      [verificador_interativo.py], and the properties of the classification
      engine.

    The Python classes are embedded as state-passing code: every method is a
    computation in the monad [M S], that threads a state [S] (the dictionary
    being filled by a validator, or the interpreter with its checker object)
    and may raise a Python exception.  A mutation done before an exception is
    raised stays visible to the handler, as in Python.

    The operating system and the libraries the scripts call (the file system,
    [hashlib], [csv], [json], [zipfile], [xml.etree], [pandas], the console)
    are not part of the repository: they are the fields of the record
    [World], and every theorem holds for all worlds. *)

From stdpp Require Import base gmap strings list pretty.
From Stdlib Require Import ZArith NArith Lia Ascii.
From Stdlib.Strings Require Import Byte.

#[local] Set Warnings "-register-all".
Open Scope Z_scope.

(* ================================================================== *)
(** ** Python values, exceptions and the monad of effects              *)
(* ================================================================== *)

(** The classes of exceptions the handlers of the scripts tell apart. *)
Inductive exn_class :=
| UnicodeDecodeError | SyntaxError | JSONDecodeError | ParseError
| EmptyDataError | CalledProcessError | PermissionError | OSError
| ValueError | EOFError | OtherError.

Record exn := Exn { exn_cls : exn_class; exn_msg : string }.

(** [str(e)] *)
Definition str (e : exn) : string := exn_msg e.

Definition is_class (c : exn_class) (e : exn) : bool :=
  match c, exn_cls e with
  | UnicodeDecodeError, UnicodeDecodeError | SyntaxError, SyntaxError
  | JSONDecodeError, JSONDecodeError | ParseError, ParseError
  | EmptyDataError, EmptyDataError | CalledProcessError, CalledProcessError
  | PermissionError, PermissionError | OSError, OSError
  | ValueError, ValueError | EOFError, EOFError
  | OtherError, OtherError => true
  | _, _ => false
  end.

(** The values stored in the dictionaries of the validators. *)
Inductive PyVal :=
| VNone
| VBool (b : bool)
| VInt (z : Z)
| VFloat (num den : Z)
| VStr (s : string)
| VList (l : list PyVal)
| VDict (d : gmap string PyVal).

Abbreviation dict := (gmap string PyVal).

(** [k in d] *)
Definition has_key (k : string) (d : dict) : bool :=
  match d !! k with Some _ => true | None => false end.

(** [d.get(k)] used as a condition. *)
Definition truthy (o : option PyVal) : bool :=
  match o with
  | Some (VBool b) => b
  | Some (VInt z) => negb (Z.eqb z 0)
  | Some (VStr s) => negb (String.eqb s "")
  | Some (VFloat n _) => negb (Z.eqb n 0)
  | Some (VList l) => match l with [] => false | _ => true end
  | Some (VDict d) => negb (bool_decide (dom d = ∅))
  | Some VNone | None => false
  end.

Definition M (S A : Type) : Type := S → (exn + A) * S.

#[global] Instance M_ret {S} : MRet (M S) := λ A a s, (inr a, s).
#[global] Instance M_bind {S} : MBind (M S) := λ A B f m s,
  match m s with
  | (inl e, s') => (inl e, s')
  | (inr a, s') => f a s'
  end.

Definition raise {S A} (e : exn) : M S A := λ s, (inl e, s).
Definition get {S} : M S S := λ s, (inr s, s).
Definition put {S} (s : S) : M S unit := λ _, (inr (), s).
Definition modify {S} (f : S → S) : M S unit := λ s, (inr (), f s).

(** A call into the world: it returns or raises, and leaves the state. *)
Definition call {S A} (r : exn + A) : M S A := λ s, (r, s).

(** [try: m  except Exception as e: h e] *)
Definition try_except {S A} (m : M S A) (h : exn → M S A) : M S A := λ s,
  match m s with
  | (inl e, s') => h e s'
  | (inr a, s') => (inr a, s')
  end.

(** [except C as e: h e], for one class: other exceptions pass through. *)
Definition on_class {S A} (c : exn_class) (h : exn → M S A) (k : exn → M S A)
  : exn → M S A := λ e, if is_class c e then h e else k e.

Definition when {S} (b : bool) (m : M S unit) : M S unit :=
  if b then m else mret ().

(** [integrity_check[k] = v] *)
Definition setitem (k : string) (v : PyVal) : M dict unit :=
  modify (λ d : dict, <[k := v]> d).

(** Run the body of a validator from the initial dictionary and return the
    dictionary it leaves (the [return integrity_check] that ends each). *)
Definition run_dict (d : dict) (m : M dict unit) : dict := snd (m d).

(* ================================================================== *)
(** ** Bytes, text and paths                                           *)
(* ================================================================== *)

Abbreviation bytes := (list byte).

(** Decoded text: the code points of a Python [str]. *)
Abbreviation text := (list N).

Fixpoint startswith (h p : bytes) : bool :=
  match p, h with
  | [], _ => true
  | _ :: _, [] => false
  | x :: p', y :: h' => Byte.eqb x y && startswith h' p'
  end.

(** [p in t] on byte strings. *)
Fixpoint contains (t p : bytes) : bool :=
  startswith t p ||
  match t with
  | [] => false
  | _ :: t' => contains t' p
  end.

Definition b_ (s : string) : bytes := String.list_byte_of_string s.

Definition sig_zip : bytes := [x50; x4b; x03; x04].
Definition sig_ole : bytes := [xd0; xcf; x11; xe0].
Definition sig_rar : bytes := b_ "Rar!" ++ [x1a; x07; x00].
Definition sig_pdf : bytes := b_ "%PDF-".
Definition eof_marker : bytes := b_ "%%EOF".

(** [f.seek(-n, 2); f.read()] on a binary file: the position before the
    start of the file is refused by the operating system. *)
Definition seek_end_read (n : nat) (f : bytes) : exn + bytes :=
  if (length f <? n)%nat
  then inl (Exn OSError "[Errno 22] Invalid argument")
  else inr (drop (length f - n) f).

(** [header.decode('ascii', errors='ignore')] *)
Definition decode_ascii_ignore (h : bytes) : string :=
  String.string_of_list_byte (filter (λ x, (Byte.to_N x <? 128)%N) h).

Definition cont (x : byte) : bool :=
  ((128 <=? Byte.to_N x) && (Byte.to_N x <=? 191))%N.

Definition in_range (lo hi : N) (x : byte) : bool :=
  ((lo <=? Byte.to_N x) && (Byte.to_N x <=? hi))%N.

Definition low6 (x : byte) : N := (Byte.to_N x - 128)%N.

(** The strict UTF-8 decoder of Python: shortest form only, no surrogates,
    nothing above U+10FFFF.  [None] stands for [UnicodeDecodeError]. *)
Fixpoint utf8_decode (l : bytes) : option text :=
  match l with
  | [] => Some []
  | b0 :: r0 =>
    let n0 := Byte.to_N b0 in
    if (n0 <? 128)%N then cons n0 <$> utf8_decode r0
    else if (n0 <? 194)%N then None
    else if (n0 <? 224)%N then
      match r0 with
      | b1 :: r1 =>
        if cont b1
        then cons ((n0 - 192) * 64 + low6 b1)%N <$> utf8_decode r1
        else None
      | _ => None
      end
    else if (n0 <? 240)%N then
      match r0 with
      | b1 :: b2 :: r2 =>
        let lo := if (n0 =? 224)%N then 160%N else 128%N in
        let hi := if (n0 =? 237)%N then 159%N else 191%N in
        if in_range lo hi b1 && cont b2
        then cons ((n0 - 224) * 4096 + low6 b1 * 64 + low6 b2)%N
               <$> utf8_decode r2
        else None
      | _ => None
      end
    else if (n0 <? 245)%N then
      match r0 with
      | b1 :: b2 :: b3 :: r3 =>
        let lo := if (n0 =? 240)%N then 144%N else 128%N in
        let hi := if (n0 =? 244)%N then 143%N else 191%N in
        if in_range lo hi b1 && cont b2 && cont b3
        then cons ((n0 - 240) * 262144 + low6 b1 * 4096
                   + low6 b2 * 64 + low6 b3)%N <$> utf8_decode r3
        else None
      | _ => None
      end
    else None
  end.

(** Windows-1252: the code points of the bytes 0x80..0x9f; five bytes have
    none. *)
Definition cp1252_high : list (option N) :=
  [Some 8364; None; Some 8218; Some 402; Some 8222; Some 8230; Some 8224;
   Some 8225; Some 710; Some 8240; Some 352; Some 8249; Some 338; None;
   Some 381; None; None; Some 8216; Some 8217; Some 8220; Some 8221;
   Some 8226; Some 8211; Some 8212; Some 732; Some 8482; Some 353;
   Some 8250; Some 339; None; Some 382; Some 376]%N.

Definition cp1252_char (x : byte) : option N :=
  let n := Byte.to_N x in
  if in_range 128 159 x
  then mjoin (cp1252_high !! N.to_nat (n - 128))
  else Some n.

(** The [UnicodeDecodeError] of a codec; its message, which names the byte,
    its position and the reason, is given by the interpreter. *)
Definition unicode_error (message : string) : exn :=
  Exn UnicodeDecodeError message.

(** [bytes.decode(encoding)] for the encodings the scripts name;
    [describe] gives the message of the error of a codec. *)
Definition decode (describe : string → bytes → string) (enc : string)
    (l : bytes) : exn + text :=
  if String.eqb enc "utf-8" then
    match utf8_decode l with
    | Some t => inr t
    | None => inl (unicode_error (describe enc l))
    end
  else if String.eqb enc "cp1252" then
    match mapM cp1252_char l with
    | Some t => inr t
    | None => inl (unicode_error (describe enc l))
    end
  else inr (Byte.to_N <$> l).

(** Text mode: ["\r\n"] and ["\r"] are read as ["\n"]. *)
Fixpoint universal_newlines (t : text) : text :=
  match t with
  | [] => []
  | 13%N :: t' =>
    match t' with
    | 10%N :: _ => universal_newlines t'
    | _ => 10%N :: universal_newlines t'
    end
  | c :: t' => c :: universal_newlines t'
  end.

(** [f.readlines()]: the lines, each with its end of line. *)
Fixpoint readlines_aux (cur : text) (t : text) : list text :=
  match t with
  | [] => match cur with [] => [] | _ => [cur] end
  | c :: t' =>
    if (c =? 10)%N then (cur ++ [c]) :: readlines_aux [] t'
    else readlines_aux (cur ++ [c]) t'
  end.

Definition readlines (t : text) : list text := readlines_aux [] t.

(** [s.count(c)] for one character. *)
Definition count_char (c : N) (s : text) : Z :=
  Z.of_nat (length (filter (λ x, (x =? c)%N) s)).

Fixpoint after_last (c : ascii) (acc s : string) : string :=
  match s with
  | EmptyString => acc
  | String a r =>
    if Ascii.eqb a c then after_last c "" r
    else after_last c (acc +:+ String a "") r
  end.

Fixpoint has_char (c : ascii) (s : string) : bool :=
  match s with
  | EmptyString => false
  | String a r => Ascii.eqb a c || has_char c r
  end.

(** [os.path.basename] *)
Definition basename (p : string) : string := after_last "/"%char "" p.

(** [Path(p).suffix]: from the last dot of the name, unless the name
    starts or ends with that dot. *)
Definition suffix (p : string) : string :=
  let name := basename p in
  if has_char "."%char name then
    let ext := after_last "."%char "" name in
    if (String.length ext =? 0)%nat then ""
    else if (String.length name - String.length ext - 1 =? 0)%nat then ""
    else "." +:+ ext
  else "".

Definition lower_ascii (a : ascii) : ascii :=
  let n := nat_of_ascii a in
  if ((65 <=? n) && (n <=? 90))%nat then ascii_of_nat (n + 32) else a.

(** [s.lower()], on the letters an extension of the registry can hold. *)
Fixpoint lower (s : string) : string :=
  match s with
  | EmptyString => EmptyString
  | String a r => String (lower_ascii a) (lower r)
  end.

(** [os.path.join(a, b)] *)
Definition path_join (a b : string) : string :=
  if has_char "/"%char (String.substring 0 1 b) then b
  else if (String.length a =? 0)%nat then b
  else if has_char "/"%char (String.substring (String.length a - 1) 1 a)
  then a +:+ b
  else a +:+ "/" +:+ b.

(** [x in l] for a list of strings. *)
Definition in_list (x : string) (l : list string) : bool :=
  existsb (String.eqb x) l.

(** [oct(n)] and [oct(n)[-3:]] *)
Fixpoint oct_digits (fuel : nat) (n : N) (acc : string) : string :=
  match fuel with
  | O => acc
  | S fuel' =>
    let d := String (ascii_of_N (48 + n mod 8)) acc in
    if (n / 8 =? 0)%N then d else oct_digits fuel' (n / 8)%N d
  end.

Definition oct (n : N) : string :=
  "0o" +:+ oct_digits (S (N.to_nat (N.log2 n))) n "".

Definition last3 (s : string) : string :=
  String.substring (String.length s - 3) 3 s.

(** [p in s] on strings. *)
Fixpoint str_contains (s p : string) : bool :=
  String.prefix p s ||
  match s with
  | EmptyString => false
  | String _ s' => str_contains s' p
  end.

(** The code points of an ASCII literal. *)
Definition t_ (s : string) : text := Byte.to_N <$> String.list_byte_of_string s.

Fixpoint text_prefix (p s : text) : bool :=
  match p, s with
  | [], _ => true
  | _ :: _, [] => false
  | x :: p', y :: s' => (x =? y)%N && text_prefix p' s'
  end.

(** [s.count(p)]: the occurrences of [p] in [s] that do not overlap. *)
Fixpoint count_sub_aux (p : text) (skip : nat) (s : text) : Z :=
  match s with
  | [] => 0
  | _ :: s' =>
    match skip with
    | S k => count_sub_aux p k s'
    | O =>
      if text_prefix p s then 1 + count_sub_aux p (length p - 1) s'
      else count_sub_aux p 0 s'
    end
  end.

Definition count_sub (s p : text) : Z := count_sub_aux p 0 s.

Definition len {A} (l : list A) : Z := Z.of_nat (length l).

(* ================================================================== *)
(** ** The world outside the repository                                *)
(* ================================================================== *)

Record stat_result := { st_size : Z; st_mtime : Z; st_mode : N }.

(** What the validators look at in a [pandas.DataFrame]. *)
Record DataFrame := {
  df_rows : Z;
  df_columns : list string;
  df_dtypes : list (string * Z);
  df_missing : Z
}.

(** An opened [zipfile.ZipFile]. *)
Record ZipFile := { testzip : exn + option string; namelist : list string }.

(** The value [json.load] returns, as far as the validator inspects it. *)
Inductive JsonData :=
| JsonDict (keys : Z)
| JsonList (items : Z)
| JsonOther (type_name : string).

Record World := {
  os_path_exists : string → bool;
  os_path_isfile : string → bool;
  os_stat : string → exn + stat_result;
  os_access_R_OK : string → bool;
  os_walk : string → list (string * list string * list string);
  os_listdir : string → exn + list string;
  (** [datetime.fromtimestamp(t).isoformat()] *)
  fromtimestamp_isoformat : Z → exn + string;
  (** [datetime.now().isoformat()] *)
  now_isoformat : string;
  (** [datetime.now().strftime("%Y%m%d_%H%M%S")] *)
  now_strftime : string;
  (** [open(path, ...)] and reading it to the end, as bytes *)
  open_read : string → exn + bytes;
  (** [hashlib.new(algorithm)]: the digest function, in hexadecimal *)
  hashlib_new : string → exn + (bytes → string);
  (** [list(csv.reader(f, delimiter=sep))] *)
  csv_reader : text → N → exn + list (list text);
  json_load : text → exn + JsonData;
  (** [compile(content, file_path, 'exec')] *)
  py_compile : text → string → exn + unit;
  str_splitlines : text → list text;
  str_upper : text → text;
  (** whether [import xml.etree.ElementTree] succeeds *)
  xml_etree_available : bool;
  (** [ET.parse(path).getroot().tag] *)
  ET_parse : string → exn + string;
  (** [zipfile.ZipFile(path, "r")] *)
  ZipFile_open : string → exn + ZipFile;
  (** [pd.ExcelFile(path).sheet_names] *)
  pd_ExcelFile : string → exn + list string;
  pd_read_excel : string → string → exn + DataFrame;
  (** [input(prompt)] at the prompt of [install_excel_dependencies]: the
      line typed, or the [EOFError] of a standard input at its end *)
  console_input : exn + string;
  (** [open(name, 'w', ...)] and the writing of a report into it *)
  open_write : string → exn + unit;
  (** [str(e)] of the [UnicodeDecodeError] of a codec on given bytes *)
  codec_error : string → bytes → string;
  (** [round(missing / cells * 100, 2)], a computation on floats *)
  round_percentage : Z → Z → PyVal;
  (** [subprocess.check_call([..., 'pip', 'install', ...])]; when it
      succeeds, what [import pandas, openpyxl] gives from then on *)
  pip_install : exn + (string + string)
}.

(** The outcome of [import pandas; import openpyxl] in the running
    interpreter: the message of the [ImportError], or the version of pandas.
    A successful [pip install] changes it during the run. *)
Abbreviation imports := (string + string)%type.

(* ================================================================== *)
(** ** The records of the scan                                         *)
(* ================================================================== *)

(** The dictionary [result] of one file.  The keys that
    [_check_basic_accessibility] creates are plain fields; a key added later
    is an [option], [None] while the key is absent.  The digests are
    [Optional[str]] in Python: [Some None] is the key bound to [None]. *)
Record FileRecord := {
  file_path : string;
  file_name : string;
  file_size : Z;
  is_accessible : bool;
  is_readable : bool;
  permissions : string;
  last_modified : string;
  error : option string;
  md5_hash : option (option string);
  sha256_hash : option (option string);
  specific_checks : option dict;
  integrity_status : option string;
  warning : option string
}.

Record Summary := {
  total_files : Z;
  intact_files : Z;
  corrupted_files : Z;
  inaccessible_files : Z;
  excel_files : Z;
  enhanced_excel_analysis : bool;
  scan_date : string
}.

(** The attributes of a [FileIntegrityChecker]; [recursive] and
    [file_types] are those [CustomFileChecker] adds. *)
Record Checker := {
  directories : list string;
  output_format : string;
  auto_install_excel : bool;
  results : list FileRecord;
  excel_enhancement_checked : bool;
  summary : Summary;
  recursive : bool;
  file_types : list string
}.

(** The state a scan runs in: the checker object, the modules the
    interpreter can import, what was logged or printed, and the names of the
    report files written. *)
Record Interp := {
  self : Checker;
  pandas : imports;
  console : list string;
  written : list string
}.

Definition set_self (f : Checker → Checker) (i : Interp) : Interp :=
  {| self := f (self i); pandas := pandas i; console := console i;
     written := written i |}.

Definition set_summary (f : Summary → Summary) (c : Checker) : Checker :=
  {| directories := directories c; output_format := output_format c;
     auto_install_excel := auto_install_excel c; results := results c;
     excel_enhancement_checked := excel_enhancement_checked c;
     summary := f (summary c);
     recursive := recursive c; file_types := file_types c |}.

Definition log (line : string) : M Interp unit :=
  modify (λ i, {| self := self i; pandas := pandas i;
                  console := console i ++ [line]; written := written i |}).

(** [FileIntegrityChecker.__init__] *)
Definition init_checker (w : World) (dirs : list string) (fmt : string)
    (auto_install : bool) : Checker :=
  {| directories := dirs; output_format := fmt;
     auto_install_excel := auto_install; results := [];
     excel_enhancement_checked := false;
     summary := {| total_files := 0; intact_files := 0; corrupted_files := 0;
                   inaccessible_files := 0; excel_files := 0;
                   enhanced_excel_analysis := false;
                   scan_date := now_isoformat w |};
     recursive := true; file_types := [] |}.

(** [CustomFileChecker.__init__] *)
Definition init_custom_checker (w : World) (dirs : list string)
    (rec : bool) (types : list string) (auto_install : bool) : Checker :=
  let c := init_checker w dirs "txt" auto_install in
  {| directories := directories c; output_format := output_format c;
     auto_install_excel := auto_install_excel c; results := results c;
     excel_enhancement_checked := excel_enhancement_checked c;
     summary := summary c; recursive := rec; file_types := types |}.

(** Assignments [result[k] = v] to the keys of a [FileRecord]. *)
Definition set_file_size (v : Z) (r : FileRecord) : FileRecord :=
  {| file_path := file_path r; file_name := file_name r; file_size := v;
     is_accessible := is_accessible r; is_readable := is_readable r;
     permissions := permissions r; last_modified := last_modified r;
     error := error r; md5_hash := md5_hash r; sha256_hash := sha256_hash r;
     specific_checks := specific_checks r;
     integrity_status := integrity_status r; warning := warning r |}.

Definition set_is_accessible (v : bool) (r : FileRecord) : FileRecord :=
  {| file_path := file_path r; file_name := file_name r;
     file_size := file_size r;
     is_accessible := v; is_readable := is_readable r;
     permissions := permissions r; last_modified := last_modified r;
     error := error r; md5_hash := md5_hash r; sha256_hash := sha256_hash r;
     specific_checks := specific_checks r;
     integrity_status := integrity_status r; warning := warning r |}.

Definition set_is_readable (v : bool) (r : FileRecord) : FileRecord :=
  {| file_path := file_path r; file_name := file_name r;
     file_size := file_size r;
     is_accessible := is_accessible r; is_readable := v;
     permissions := permissions r; last_modified := last_modified r;
     error := error r; md5_hash := md5_hash r; sha256_hash := sha256_hash r;
     specific_checks := specific_checks r;
     integrity_status := integrity_status r; warning := warning r |}.

Definition set_permissions (v : string) (r : FileRecord) : FileRecord :=
  {| file_path := file_path r; file_name := file_name r;
     file_size := file_size r;
     is_accessible := is_accessible r; is_readable := is_readable r;
     permissions := v; last_modified := last_modified r;
     error := error r; md5_hash := md5_hash r; sha256_hash := sha256_hash r;
     specific_checks := specific_checks r;
     integrity_status := integrity_status r; warning := warning r |}.

Definition set_last_modified (v : string) (r : FileRecord) : FileRecord :=
  {| file_path := file_path r; file_name := file_name r;
     file_size := file_size r;
     is_accessible := is_accessible r; is_readable := is_readable r;
     permissions := permissions r; last_modified := v;
     error := error r; md5_hash := md5_hash r; sha256_hash := sha256_hash r;
     specific_checks := specific_checks r;
     integrity_status := integrity_status r; warning := warning r |}.

Definition set_error (v : option string) (r : FileRecord) : FileRecord :=
  {| file_path := file_path r; file_name := file_name r;
     file_size := file_size r;
     is_accessible := is_accessible r; is_readable := is_readable r;
     permissions := permissions r; last_modified := last_modified r;
     error := v; md5_hash := md5_hash r; sha256_hash := sha256_hash r;
     specific_checks := specific_checks r;
     integrity_status := integrity_status r; warning := warning r |}.

Definition set_md5_hash (v : option string) (r : FileRecord) : FileRecord :=
  {| file_path := file_path r; file_name := file_name r;
     file_size := file_size r;
     is_accessible := is_accessible r; is_readable := is_readable r;
     permissions := permissions r; last_modified := last_modified r;
     error := error r; md5_hash := Some v; sha256_hash := sha256_hash r;
     specific_checks := specific_checks r;
     integrity_status := integrity_status r; warning := warning r |}.

Definition set_sha256_hash (v : option string) (r : FileRecord) : FileRecord :=
  {| file_path := file_path r; file_name := file_name r;
     file_size := file_size r;
     is_accessible := is_accessible r; is_readable := is_readable r;
     permissions := permissions r; last_modified := last_modified r;
     error := error r; md5_hash := md5_hash r; sha256_hash := Some v;
     specific_checks := specific_checks r;
     integrity_status := integrity_status r; warning := warning r |}.

Definition set_specific_checks (v : dict) (r : FileRecord) : FileRecord :=
  {| file_path := file_path r; file_name := file_name r;
     file_size := file_size r;
     is_accessible := is_accessible r; is_readable := is_readable r;
     permissions := permissions r; last_modified := last_modified r;
     error := error r; md5_hash := md5_hash r; sha256_hash := sha256_hash r;
     specific_checks := Some v;
     integrity_status := integrity_status r; warning := warning r |}.

Definition set_integrity_status (v : string) (r : FileRecord) : FileRecord :=
  {| file_path := file_path r; file_name := file_name r;
     file_size := file_size r;
     is_accessible := is_accessible r; is_readable := is_readable r;
     permissions := permissions r; last_modified := last_modified r;
     error := error r; md5_hash := md5_hash r; sha256_hash := sha256_hash r;
     specific_checks := specific_checks r;
     integrity_status := Some v; warning := warning r |}.

Definition set_warning (v : string) (r : FileRecord) : FileRecord :=
  {| file_path := file_path r; file_name := file_name r;
     file_size := file_size r;
     is_accessible := is_accessible r; is_readable := is_readable r;
     permissions := permissions r; last_modified := last_modified r;
     error := error r; md5_hash := md5_hash r; sha256_hash := sha256_hash r;
     specific_checks := specific_checks r;
     integrity_status := integrity_status r; warning := Some v |}.

(* ================================================================== *)
(** ** [ExcelDependencyManager]                                        *)
(* ================================================================== *)

Definition missing_modules_of (msg : string) : list string :=
  (if str_contains msg "pandas" then ["pandas"] else [])
  ++ (if str_contains msg "openpyxl" then ["openpyxl"] else []).

(** [check_pandas_available]: [(True, version)] or [(False, missing)]. *)
Definition check_pandas_available : M Interp (bool * PyVal) :=
  i ← get;
  match pandas i with
  | inr version => mret (true, VStr version)
  | inl e => mret (false, VList (VStr <$> missing_modules_of e))
  end.

Definition is_space (a : ascii) : bool :=
  let n := nat_of_ascii a in ((n =? 32) || ((9 <=? n) && (n <=? 13)))%nat.

Fixpoint lstrip (s : string) : string :=
  match s with
  | String a r => if is_space a then lstrip r else s
  | EmptyString => EmptyString
  end.

Fixpoint rstrip (s : string) : string :=
  match s with
  | EmptyString => EmptyString
  | String a r =>
    match rstrip r with
    | EmptyString => if is_space a then EmptyString else String a EmptyString
    | r' => String a r'
    end
  end.

(** [s.strip()] *)
Definition strip (s : string) : string := rstrip (lstrip s).

Fixpoint join (sep : string) (l : list string) : string :=
  match l with
  | [] => ""
  | [x] => x
  | x :: l' => x +:+ sep +:+ join sep l'
  end.

(** [str(v)] for the values [check_pandas_available] returns. *)
Definition show (v : PyVal) : string :=
  match v with
  | VStr s => s
  | VList l =>
    "[" +:+ join ", " ((λ x, match x with
                             | VStr s => "'" +:+ s +:+ "'"
                             | _ => ""
                             end) <$> l) +:+ "]"
  | _ => ""
  end.

Definition set_pandas (p : imports) : M Interp unit :=
  modify (λ i, {| self := self i; pandas := p; console := console i;
                  written := written i |}).

(** [install_excel_dependencies(auto_install)] *)
Definition install_excel_dependencies (w : World) (auto_install : bool)
  : M Interp (bool * string) :=
  '(available, info) ← check_pandas_available;
  if available : bool
  then mret (true, "Pandas já instalado (versão " +:+ show info +:+ ")")
  else
    cancelled ←
      (if negb auto_install then
         log "📊 SUPORTE EXCEL APRIMORADO DISPONÍVEL!";;
         log "=============================================";;
         log "Para verificação completa de arquivos Excel (.xlsx/.xls):";;
         log "- Análise de planilhas e dados";;
         log "- Contagem de linhas e colunas";;
         log "- Verificação de integridade estrutural";;
         log "- Detecção de células corrompidas";;
         log ("Módulos necessários: " +:+ show info);;
         log "Instalar automaticamente? (s/N): ";;
         line ← call (console_input w);
         let resposta := lower (strip line) in
         mret (negb (in_list resposta ["s"; "sim"; "y"; "yes"]))
       else mret false);
    if cancelled : bool
    then mret (false, "Instalação cancelada pelo usuário")
    else
      log "📦 Instalando dependências para Excel...";;
      try_except
        (installed ← call (pip_install w);
         set_pandas installed;;
         '(available, version) ← check_pandas_available;
         if available : bool then
           log "✅ Dependências instaladas com sucesso!";;
           log ("   Pandas versão: " +:+ show version);;
           mret (true, "Instalação concluída")
         else mret (false, "Erro na verificação pós-instalação"))
        (on_class CalledProcessError
           (λ e, mret (false, "Erro na instalação: " +:+ str e))
           (λ e, mret (false, "Erro inesperado: " +:+ str e))).

(* ================================================================== *)
(** ** Hasher and accessibility prober                                 *)
(* ================================================================== *)

(** [calculate_file_hash]: the chunks of 4096 bytes fed to [update] add up
    to the content of the file. *)
Definition calculate_file_hash (w : World) (file_path algorithm : string)
  : M Interp (option string) :=
  try_except
    (hash_func ← call (hashlib_new w algorithm);
     f ← call (open_read w file_path);
     mret (Some (hash_func f)))
    (λ e,
       log ("Erro ao calcular hash do arquivo " +:+ file_path +:+ ": "
            +:+ str e);;
       mret None).

Definition new_result (file_path : string) : FileRecord :=
  {| file_path := file_path; file_name := basename file_path;
     file_size := 0; is_accessible := false; is_readable := false;
     permissions := ""; last_modified := ""; error := None;
     md5_hash := None; sha256_hash := None; specific_checks := None;
     integrity_status := None; warning := None |}.

(** The body of the [try] of [_check_basic_accessibility], on the
    dictionary [result]. *)
Definition probe (w : World) (file_path : string) : M FileRecord unit :=
  if negb (os_path_exists w file_path)
  then modify (set_error (Some "Arquivo não encontrado"))
  else
    stat_info ← call (os_stat w file_path);
    modify (set_file_size (st_size stat_info));;
    modified ← call (fromtimestamp_isoformat w (st_mtime stat_info));
    modify (set_last_modified modified);;
    modify (set_permissions (last3 (oct (st_mode stat_info))));;
    modify (set_is_accessible true);;
    when (os_access_R_OK w file_path) (modify (set_is_readable true)).

Definition _check_basic_accessibility (w : World) (file_path : string)
  : M Interp FileRecord :=
  match probe w file_path (new_result file_path) with
  | (inr _, result) => mret result
  | (inl e, result) =>
    log ("Erro ao acessar arquivo " +:+ file_path +:+ ": " +:+ str e);;
    mret (set_error (Some (str e)) result)
  end.

(* ================================================================== *)
(** ** Format validators                                               *)
(* ================================================================== *)

(** [open(file_path, 'r', encoding=encoding)] and reading it: the bytes
    decoded, with the ends of line of text mode. *)
Definition read_text {S} (w : World) (file_path encoding : string)
  : M S text :=
  raw ← call (open_read w file_path);
  t ← call (decode (codec_error w) encoding raw);
  mret (universal_newlines t).

Definition encodings : list string :=
  ["utf-8"; "latin1"; "cp1252"; "iso-8859-1"].

(** The separator with the most occurrences in the sample; the comma wins
    the ties. *)
Definition detect_separator (sample : text) : N :=
  fold_left
    (λ separator sep,
       if count_char separator sample <? count_char sep sample
       then sep else separator)
    [44; 59; 9; 124]%N 44%N.

Definition VText (t : text) : PyVal := VList (VInt ∘ Z.of_N <$> t).

(** The loop over the encodings of [_check_csv_file]: [true] is [break],
    [false] is [continue]. *)
Fixpoint csv_encodings (w : World) (file_path : string)
    (encs : list string) : M dict unit :=
  match encs with
  | [] => mret ()
  | encoding :: encs' =>
    done ← try_except
      (f ← read_text w file_path encoding;
       let sample := take 1024 f in
       let separator := detect_separator sample in
       rows ← call (csv_reader w f separator);
       setitem "format_valid" (VBool true);;
       setitem "rows_count" (VInt (len rows));;
       setitem "columns_count"
         (VInt (match rows with r :: _ => len r | [] => 0 end));;
       setitem "encoding" (VStr encoding);;
       setitem "separator" (VText [separator]);;
       mret true)
      (on_class UnicodeDecodeError (λ _, mret false) raise);
    if done : bool then mret () else csv_encodings w file_path encs'
  end.

Definition _check_csv_file (w : World) (file_path : string) : dict :=
  run_dict
    (<["format_valid" := VBool false]> (<["rows_count" := VInt 0]>
     (<["columns_count" := VInt 0]> {["encoding" := VStr "unknown"]})))
    (try_except (csv_encodings w file_path encodings)
       (λ e, setitem "error" (VStr (str e)))).

Definition _check_json_file (w : World) (file_path : string) : dict :=
  run_dict
    (<["format_valid" := VBool false]> {["json_valid" := VBool false]})
    (try_except
       (f ← read_text w file_path "utf-8";
        data ← call (json_load w f);
        setitem "format_valid" (VBool true);;
        setitem "json_valid" (VBool true);;
        match data with
        | JsonDict n =>
          setitem "data_type" (VStr "dict");;
          setitem "keys_count" (VInt n)
        | JsonList n =>
          setitem "data_type" (VStr "list");;
          setitem "items_count" (VInt n)
        | JsonOther name => setitem "data_type" (VStr name)
        end)
       (on_class JSONDecodeError
          (λ e, setitem "error" (VStr ("JSON inválido: " +:+ str e)))
          (λ e, setitem "error" (VStr (str e))))).

Definition sheet_info_of (w : World) (df : DataFrame) : dict * Z :=
  let rows := df_rows df in
  let columns := len (df_columns df) in
  let cells := rows * columns in
  let info : dict :=
    <["rows" := VInt rows]> (<["columns" := VInt columns]>
    (<["cells" := VInt cells]>
    (<["has_data" := VBool (negb ((rows =? 0) || (columns =? 0)))]>
    (<["column_names" :=
         if columns <=? 20 then VList (VStr <$> df_columns df)
         else VStr (pretty columns +:+ " colunas")]>
    (<["data_types" :=
         VDict (list_to_map (prod_map id VInt <$> df_dtypes df))]>
    (<["missing_cells" := VInt (df_missing df)]>
    {["missing_percentage" :=
        if 0 <? cells then round_percentage w (df_missing df) cells
        else VInt 0]})))))) in
  (info, cells).

(** The loop over the first sheets: a sheet that cannot be read gets its
    own entry with an ['error'] of its own. *)
Fixpoint analyse_sheets (w : World) (file_path : string)
    (names : list string) (sheets_info : dict) (total_cells : Z)
  : dict * Z :=
  match names with
  | [] => (sheets_info, total_cells)
  | sheet_name :: names' =>
    match pd_read_excel w file_path sheet_name with
    | inr df =>
      let '(sheet_info, cells) := sheet_info_of w df in
      analyse_sheets w file_path names'
        (<[sheet_name := VDict sheet_info]> sheets_info)
        (total_cells + cells)
    | inl e =>
      analyse_sheets w file_path names'
        (<[sheet_name := VDict {["error" := VStr (str e)]}]> sheets_info)
        total_cells
    end
  end.

(** The basic tier of [_check_excel_file]; [false] when it ends the
    validator (the [return] of its handler). *)
Definition excel_basic (w : World) (file_path : string) : M dict bool :=
  try_except
    (let file_ext := lower (suffix file_path) in
     f ← call (open_read w file_path);
     let header := take 8 f in
     (if String.eqb file_ext ".xlsx" then
        when (startswith header sig_zip)
          (setitem "format_valid" (VBool true);;
           setitem "file_type" (VStr "xlsx"))
      else if String.eqb file_ext ".xls" then
        when (startswith header sig_ole)
          (setitem "format_valid" (VBool true);;
           setitem "file_type" (VStr "xls"))
      else mret ());;
     mret true)
    (λ e,
       setitem "error" (VStr ("Erro na verificação básica: " +:+ str e));;
       mret false).

(** The advanced tier, entered when pandas and openpyxl are imported. *)
Definition excel_advanced (w : World) (file_path version : string)
  : M dict unit :=
  setitem "verification_level" (VStr "advanced");;
  setitem "pandas_version" (VStr version);;
  try_except
    (sheet_names ← call (pd_ExcelFile w file_path);
     setitem "sheets_count" (VInt (len sheet_names));;
     setitem "sheet_names" (VList (VStr <$> sheet_names));;
     let '(sheets_info, total_cells) :=
       analyse_sheets w file_path (take 5 sheet_names) ∅ 0 in
     setitem "sheets_info" (VDict sheets_info);;
     setitem "total_cells" (VInt total_cells);;
     if 0 <? len sheet_names
     then setitem "structure_valid" (VBool true)
     else
       setitem "structure_valid" (VBool false);;
       setitem "warning" (VStr "Arquivo Excel sem planilhas válidas"))
    (on_class EmptyDataError
       (λ _, setitem "error" (VStr "Arquivo Excel vazio"))
       (λ e,
          let error_msg := lower (str e) in
          if str_contains error_msg "not a zip file"
             || str_contains error_msg "bad zipfile"
          then setitem "error"
                 (VStr "Arquivo Excel corrompido ou formato inválido")
          else if str_contains error_msg "permission"
          then setitem "error"
                 (VStr "Sem permissão para acessar arquivo Excel")
          else setitem "error"
                 (VStr ("Erro na análise Excel: " +:+ str e)))).

(** The handler of the [ImportError] of the advanced tier. *)
Definition excel_import_error (msg : string) : M dict unit :=
  let missing_modules := missing_modules_of msg in
  setitem "verification_level" (VStr "basic");;
  setitem "warning"
    (VStr ("Verificação limitada - módulos ausentes: "
           +:+ join ", " missing_modules));;
  setitem "enhancement_available" (VBool true);;
  setitem "missing_modules" (VList (VStr <$> missing_modules));;
  d ← get;
  when (truthy (d !! "format_valid"))
    (setitem "suggestion"
       (VStr "Instale pandas e openpyxl para verificação completa de Excel")).

Definition _check_excel_file (w : World) (imp : imports)
    (file_path : string) : dict :=
  run_dict
    (<["format_valid" := VBool false]> (<["sheets_count" := VInt 0]>
     {["verification_level" := VStr "basic"]}))
    (continue ← excel_basic w file_path;
     if continue : bool then
       match imp with
       | inr version => excel_advanced w file_path version
       | inl msg => excel_import_error msg
       end
     else mret ()).

Definition _check_pdf_file (w : World) (file_path : string) : dict :=
  run_dict
    (<["format_valid" := VBool false]> {["pages_count" := VInt 0]})
    (try_except
       (f ← call (open_read w file_path);
        let header := take 8 f in
        when (startswith header sig_pdf)
          (setitem "format_valid" (VBool true);;
           setitem "pdf_version" (VStr (decode_ascii_ignore header)));;
        tail ← call (seek_end_read 1024 f);
        when (contains tail eof_marker) (setitem "has_eof" (VBool true)))
       (λ e, setitem "error" (VStr (str e)))).

(** The loop over the encodings of [_check_text_file]. *)
Fixpoint text_encodings (w : World) (file_path : string)
    (encs : list string) : M dict unit :=
  match encs with
  | [] => mret ()
  | encoding :: encs' =>
    done ← try_except
      (f ← read_text w file_path encoding;
       let lines := readlines f in
       setitem "format_valid" (VBool true);;
       setitem "lines_count" (VInt (len lines));;
       setitem "encoding" (VStr encoding);;
       setitem "char_count" (VInt (foldr (λ line n, len line + n) 0 lines));;
       mret true)
      (on_class UnicodeDecodeError (λ _, mret false) raise);
    if done : bool then mret () else text_encodings w file_path encs'
  end.

Definition _check_text_file (w : World) (file_path : string) : dict :=
  run_dict
    (<["format_valid" := VBool false]> (<["lines_count" := VInt 0]>
     {["encoding" := VStr "unknown"]}))
    (try_except (text_encodings w file_path encodings)
       (λ e, setitem "error" (VStr (str e)))).

Definition _check_python_file (w : World) (file_path : string) : dict :=
  run_dict
    (<["format_valid" := VBool false]> {["syntax_valid" := VBool false]})
    (try_except
       (content ← read_text w file_path "utf-8";
        call (py_compile w content file_path);;
        setitem "format_valid" (VBool true);;
        setitem "syntax_valid" (VBool true);;
        setitem "lines_count" (VInt (len (str_splitlines w content))))
       (on_class SyntaxError
          (λ e,
             setitem "format_valid" (VBool true);;
             setitem "syntax_error" (VStr (str e)))
          (λ e, setitem "error" (VStr (str e))))).

Definition sql_keywords : list string :=
  ["SELECT"; "INSERT"; "UPDATE"; "DELETE"; "CREATE"; "DROP"].

Definition _check_sql_file (w : World) (file_path : string) : dict :=
  run_dict
    (<["format_valid" := VBool false]> {["statements_count" := VInt 0]})
    (try_except
       (content ← read_text w file_path "utf-8";
        setitem "format_valid" (VBool true);;
        setitem "lines_count" (VInt (len (str_splitlines w content)));;
        let statements :=
          foldr (λ k n, count_sub (str_upper w content) (t_ k) + n) 0
                sql_keywords in
        setitem "statements_count" (VInt statements))
       (λ e, setitem "error" (VStr (str e)))).

Definition _check_xml_file (w : World) (file_path : string) : dict :=
  run_dict
    (<["format_valid" := VBool false]> {["well_formed" := VBool false]})
    (if xml_etree_available w then
       try_except
         (root_tag ← call (ET_parse w file_path);
          setitem "format_valid" (VBool true);;
          setitem "well_formed" (VBool true);;
          setitem "root_tag" (VStr root_tag))
         (on_class ParseError
            (λ e,
               setitem "format_valid" (VBool true);;
               setitem "xml_error" (VStr (str e)))
            (λ e, setitem "error" (VStr (str e))))
     else setitem "error" (VStr "xml.etree não disponível")).

Definition _check_zip_file (w : World) (file_path : string) : dict :=
  run_dict
    (<["format_valid" := VBool false]> {["files_count" := VInt 0]})
    (try_except
       (zip_file ← call (ZipFile_open w file_path);
        bad_file ← call (testzip zip_file);
        setitem "format_valid" (VBool true);;
        setitem "is_corrupted"
          (VBool (match bad_file with Some _ => true | None => false end));;
        setitem "files_count" (VInt (len (namelist zip_file)));;
        match bad_file with
        | Some name =>
          when (negb (String.eqb name ""))
            (setitem "corrupted_file" (VStr name))
        | None => mret ()
        end)
       (λ e, setitem "error" (VStr (str e)))).

Definition _check_rar_file (w : World) (file_path : string) : dict :=
  run_dict {["format_valid" := VBool false]}
    (try_except
       (f ← call (open_read w file_path);
        let header := take 7 f in
        when (startswith header sig_rar)
          (setitem "format_valid" (VBool true);;
           setitem "rar_signature" (VBool true)))
       (λ e, setitem "error" (VStr (str e)))).

(** [self.file_handlers], with the methods bound to the world and to the
    modules the interpreter can import at the time of the call. *)
Definition file_handlers (w : World) (imp : imports)
  : gmap string (string → dict) :=
  list_to_map
    [(".csv", _check_csv_file w); (".json", _check_json_file w);
     (".xlsx", _check_excel_file w imp); (".xls", _check_excel_file w imp);
     (".pdf", _check_pdf_file w); (".txt", _check_text_file w);
     (".py", _check_python_file w); (".sql", _check_sql_file w);
     (".xml", _check_xml_file w); (".zip", _check_zip_file w);
     (".rar", _check_rar_file w)].

(* ================================================================== *)
(** ** Classification of one file                                      *)
(* ================================================================== *)

Definition set_excel_enhancement_checked (c : Checker) : Checker :=
  {| directories := directories c; output_format := output_format c;
     auto_install_excel := auto_install_excel c; results := results c;
     excel_enhancement_checked := true; summary := summary c;
     recursive := recursive c; file_types := file_types c |}.

Definition set_enhanced_excel_analysis (s : Summary) : Summary :=
  {| total_files := total_files s; intact_files := intact_files s;
     corrupted_files := corrupted_files s;
     inaccessible_files := inaccessible_files s;
     excel_files := excel_files s; enhanced_excel_analysis := true;
     scan_date := scan_date s |}.

Definition incr_excel_files (s : Summary) : Summary :=
  {| total_files := total_files s; intact_files := intact_files s;
     corrupted_files := corrupted_files s;
     inaccessible_files := inaccessible_files s;
     excel_files := excel_files s + 1;
     enhanced_excel_analysis := enhanced_excel_analysis s;
     scan_date := scan_date s |}.

Definition incr_total_files (s : Summary) : Summary :=
  {| total_files := total_files s + 1; intact_files := intact_files s;
     corrupted_files := corrupted_files s;
     inaccessible_files := inaccessible_files s;
     excel_files := excel_files s;
     enhanced_excel_analysis := enhanced_excel_analysis s;
     scan_date := scan_date s |}.

Definition incr_intact_files (s : Summary) : Summary :=
  {| total_files := total_files s; intact_files := intact_files s + 1;
     corrupted_files := corrupted_files s;
     inaccessible_files := inaccessible_files s;
     excel_files := excel_files s;
     enhanced_excel_analysis := enhanced_excel_analysis s;
     scan_date := scan_date s |}.

Definition incr_corrupted_files (s : Summary) : Summary :=
  {| total_files := total_files s; intact_files := intact_files s;
     corrupted_files := corrupted_files s + 1;
     inaccessible_files := inaccessible_files s;
     excel_files := excel_files s;
     enhanced_excel_analysis := enhanced_excel_analysis s;
     scan_date := scan_date s |}.

Definition incr_inaccessible_files (s : Summary) : Summary :=
  {| total_files := total_files s; intact_files := intact_files s;
     corrupted_files := corrupted_files s;
     inaccessible_files := inaccessible_files s + 1;
     excel_files := excel_files s;
     enhanced_excel_analysis := enhanced_excel_analysis s;
     scan_date := scan_date s |}.

Definition append_result (r : FileRecord) (c : Checker) : Checker :=
  {| directories := directories c; output_format := output_format c;
     auto_install_excel := auto_install_excel c;
     results := results c ++ [r];
     excel_enhancement_checked := excel_enhancement_checked c;
     summary := summary c;
     recursive := recursive c; file_types := file_types c |}.

Definition _check_excel_enhancement (w : World) : M Interp unit :=
  i ← get;
  if excel_enhancement_checked (self i) then mret ()
  else
    modify (set_self set_excel_enhancement_checked);;
    '(available, info) ← check_pandas_available;
    if available : bool
    then modify (set_self (set_summary set_enhanced_excel_analysis))
    else
      log "📊 Arquivo Excel detectado!";;
      '(success, message) ←
        install_excel_dependencies w (auto_install_excel (self i));
      if success : bool then
        modify (set_self (set_summary set_enhanced_excel_analysis));;
        log "✅ Análise Excel aprimorada ativada!"
      else
        log ("⚠️  " +:+ message);;
        log "💡 Verificação básica de Excel será usada".

Definition unknown_format : dict :=
  <["format" := VStr "unknown"]>
    {["message" := VStr "Tipo de arquivo não reconhecido"]}.

(** ['specific_checks' in result and p(result['specific_checks'])] *)
Definition in_specific_checks (p : dict → bool) (r : FileRecord) : bool :=
  match specific_checks r with
  | Some specific => p specific
  | None => false
  end.

(** The last block of [check_file_integrity]: the status of a file that is
    accessible. *)
Definition determine_status (result : FileRecord) : FileRecord :=
  if is_readable result then
    if file_size result =? 0 then
      set_warning "Arquivo vazio" (set_integrity_status "UNKNOWN" result)
    else if in_specific_checks (λ d, negb (has_key "error" d)) result then
      set_integrity_status "INTACT" result
    else if in_specific_checks (has_key "error") result then
      set_integrity_status "CORRUPTED" result
    else set_integrity_status "INTACT" result
  else set_integrity_status "CORRUPTED" result.

Definition check_file_integrity (w : World) (file_path : string)
  : M Interp FileRecord :=
  log ("Verificando arquivo: " +:+ file_path);;
  result ← _check_basic_accessibility w file_path;
  if negb (is_accessible result)
  then mret (set_integrity_status "INACCESSIBLE" result)
  else
    md5 ← calculate_file_hash w file_path "md5";
    let result := set_md5_hash md5 result in
    sha256 ← calculate_file_hash w file_path "sha256";
    let result := set_sha256_hash sha256 result in
    let file_ext := lower (suffix file_path) in
    when (in_list file_ext [".xlsx"; ".xls"])
      (_check_excel_enhancement w;;
       modify (set_self (set_summary incr_excel_files)));;
    i ← get;
    let result :=
      match file_handlers w (pandas i) !! file_ext with
      | Some handler => set_specific_checks (handler file_path) result
      | None => set_specific_checks unknown_format result
      end in
    mret (determine_status result).

(* ================================================================== *)
(** ** Scanning and the summary                                        *)
(* ================================================================== *)

(** [for x in l: body x] *)
Fixpoint for_each {S A} (l : list A) (body : A → M S unit) : M S unit :=
  match l with
  | [] => mret ()
  | x :: l' => body x;; for_each l' body
  end.

(** [result['integrity_status']] *)
Definition status_of (r : FileRecord) : M Interp string :=
  match integrity_status r with
  | Some s => mret s
  | None => raise (Exn OtherError "'integrity_status'")
  end.

(** The body of the [try] that [scan_directories] and [process_file]
    share: check the file, keep its record, update the counters. *)
Definition count_file (w : World) (file_path : string) : M Interp unit :=
  result ← check_file_integrity w file_path;
  modify (set_self (append_result result));;
  modify (set_self (set_summary incr_total_files));;
  status ← status_of result;
  if String.eqb status "INTACT" then
    modify (set_self (set_summary incr_intact_files))
  else if String.eqb status "CORRUPTED" then
    modify (set_self (set_summary incr_corrupted_files))
  else if String.eqb status "INACCESSIBLE" then
    modify (set_self (set_summary incr_inaccessible_files))
  else mret ().

(** [FileIntegrityChecker.scan_directories] *)
Definition scan_directories (w : World) : M Interp unit :=
  i ← get;
  log ("Iniciando verificação de integridade em "
       +:+ pretty (len (directories (self i))) +:+ " diretórios");;
  for_each (directories (self i)) (λ directory,
    log ("Escaneando diretório: " +:+ directory);;
    if negb (os_path_exists w directory)
    then log ("Diretório não encontrado: " +:+ directory)
    else
      for_each (os_walk w directory) (λ '(root, dirs, files),
        for_each files (λ file,
          let file_path := path_join root file in
          try_except (count_file w file_path)
            (λ e, log ("Erro ao processar arquivo " +:+ file_path +:+ ": "
                       +:+ str e)))));;
  i ← get;
  log ("Verificação concluída. Total de arquivos: "
       +:+ pretty (total_files (summary (self i)))).

(** [CustomFileChecker.should_check_file] *)
Definition should_check_file (c : Checker) (file_path : string) : bool :=
  match file_types c with
  | [] => true
  | _ => in_list (lower (suffix file_path)) (file_types c)
  end.

(** [CustomFileChecker.process_file] *)
Definition process_file (w : World) (file_path : string) : M Interp unit :=
  try_except
    (count_file w file_path;;
     i ← get;
     when (total_files (summary (self i)) mod 100 =? 0)
       (log ("  Processados: " +:+ pretty (total_files (summary (self i)))
             +:+ " arquivos...")))
    (λ e, log ("❌ Erro ao processar " +:+ file_path +:+ ": " +:+ str e)).

(** [CustomFileChecker.scan_directories] *)
Definition custom_scan_directories (w : World) : M Interp unit :=
  i ← get;
  log ("Iniciando verificação de integridade em "
       +:+ pretty (len (directories (self i))) +:+ " diretórios");;
  for_each (directories (self i)) (λ directory,
    log ("Escaneando: " +:+ directory);;
    if negb (os_path_exists w directory)
    then log ("⚠️  Diretório não encontrado: " +:+ directory)
    else if recursive (self i) then
      for_each (os_walk w directory) (λ '(root, dirs, files),
        for_each files (λ file,
          let file_path := path_join root file in
          when (should_check_file (self i) file_path)
            (process_file w file_path)))
    else
      try_except
        (items ← call (os_listdir w directory);
         for_each items (λ item,
           let file_path := path_join directory item in
           when (os_path_isfile w file_path
                 && should_check_file (self i) file_path)
             (process_file w file_path)))
        (on_class PermissionError
           (λ _, log ("⚠️  Sem permissão para ler diretório: "
                      +:+ directory))
           raise));;
  i ← get;
  log ("Verificação concluída. Total: "
       +:+ pretty (total_files (summary (self i))) +:+ " arquivos").

(* ================================================================== *)
(** ** Reports and the command line                                    *)
(* ================================================================== *)







(* ================================================================== *)
(** ** A small world to run the scripts in                             *)
(* ================================================================== *)

(** One directory ["d"] holding the given files (name, content, whether the
    process may read it).  The parsers accept what they are given, but for
    [pd.ExcelFile] and [ET.parse], whose outcome is a parameter; digests
    are the name of the algorithm; the user answers no at the prompt,
    [pip] fails and the reports can be written. *)
Module Toy.

Definition entry : Type := string * bytes * bool.

Fixpoint find (files : list entry) (p : string) : option (bytes * bool) :=
  match files with
  | [] => None
  | (name, content, readable) :: files' =>
    if String.eqb p (path_join "d" name) then Some (content, readable)
    else find files' p
  end.

Definition no_such_file : exn :=
  Exn OSError "[Errno 2] No such file or directory".
Definition permission_denied : exn :=
  Exn PermissionError "[Errno 13] Permission denied".

Definition world_with (files : list entry)
    (workbook : exn + list string) (document : exn + string) : World :=
  {| os_path_exists p :=
       String.eqb p "d" || bool_decide (is_Some (find files p));
     os_path_isfile p := bool_decide (is_Some (find files p));
     os_stat p :=
       match find files p with
       | Some (content, _) =>
         inr {| st_size := len content; st_mtime := 0; st_mode := 33188 |}
       | None => inl no_such_file
       end;
     os_access_R_OK p :=
       match find files p with
       | Some (_, readable) => readable
       | None => false
       end;
     os_walk d :=
       if String.eqb d "d" then [("d", [], (λ e, e.1.1) <$> files)] else [];
     os_listdir d :=
       if String.eqb d "d" then inr ((λ e, e.1.1) <$> files)
       else inl no_such_file;
     fromtimestamp_isoformat _ := inr "1970-01-01T00:00:00";
     now_isoformat := "2024-01-01T00:00:00";
     now_strftime := "20240101_000000";
     open_read p :=
       match find files p with
       | Some (content, true) => inr content
       | Some (_, false) => inl permission_denied
       | None => inl no_such_file
       end;
     hashlib_new algorithm := inr (λ _, algorithm);
     csv_reader _ _ := inr [];
     json_load _ := inr (JsonOther "NoneType");
     py_compile _ _ := inr ();
     str_splitlines t := readlines t;
     str_upper t := t;
     xml_etree_available := true;
     ET_parse _ := document;
     ZipFile_open _ := inr {| testzip := inr None; namelist := [] |};
     pd_ExcelFile _ := workbook;
     pd_read_excel _ _ :=
       inr {| df_rows := 0; df_columns := []; df_dtypes := [];
              df_missing := 0 |};
     console_input := inr "n";
     open_write _ := inr ();
     codec_error enc _ := "'" +:+ enc +:+ "' codec can't decode bytes";
     round_percentage missing cells := VFloat (100 * missing) cells;
     pip_install := inl (Exn CalledProcessError "exit status 1") |}.

Definition world (files : list entry) : World :=
  world_with files (inr []) (inr "root").

Definition no_pandas : imports := inl "No module named 'pandas'".

(** A fresh checker over ["d"], before [scan_directories]. *)
Definition start (w : World) (imp : imports) : Interp :=
  {| self := init_checker w ["d"] "json" false; pandas := imp;
     console := []; written := [] |}.

Definition pdf_small : bytes := b_ "%PDF-1.4" ++ [x0a] ++ b_ "%%EOF".

(** pandas refuses a workbook it cannot recognise. *)
Definition unknown_workbook : exn :=
  Exn ValueError
    "Excel file format cannot be determined, you must specify an engine manually.".

(** The message of [xml.etree] for a document that is not well formed. *)
Definition not_well_formed : exn :=
  Exn ParseError "not well-formed (invalid token): line 1, column 2".

End Toy.

(* ================================================================== *)
(** ** Specifications                                                  *)
(* ================================================================== *)

(** [wp m Q E s]: run from [s], [m] returns a value and a state in [Q], or
    raises an exception and leaves a state in [E]. *)
Definition wp {S A} (m : M S A) (Q : A → S → Prop) (E : exn → S → Prop)
    (s : S) : Prop :=
  match m s with
  | (inr a, s') => Q a s'
  | (inl e, s') => E e s'
  end.

(** No exception at all. *)
Definition never {S} : exn → S → Prop := λ _ _, False.


(** Lines added to the console. *)
Definition add_lines (lines : list string) (i : Interp) : Interp :=
  {| self := self i; pandas := pandas i; console := console i ++ lines;
     written := written i |}.

(** The record [_check_basic_accessibility] returns. *)
Definition basic_result (w : World) (file_path : string) : FileRecord :=
  match probe w file_path (new_result file_path) with
  | (inr _, result) => result
  | (inl e, result) => set_error (Some (str e)) result
  end.

(** The value [calculate_file_hash] returns. *)
Definition digest (w : World) (file_path algorithm : string) : option string :=
  match hashlib_new w algorithm, open_read w file_path with
  | inr hash_func, inr f => Some (hash_func f)
  | _, _ => None
  end.

(** What the aggregator counts is left as it was. *)
Definition untouched (i i' : Interp) : Prop :=
  results (self i') = results (self i) ∧
  total_files (summary (self i')) = total_files (summary (self i)) ∧
  intact_files (summary (self i')) = intact_files (summary (self i)) ∧
  corrupted_files (summary (self i')) = corrupted_files (summary (self i)) ∧
  inaccessible_files (summary (self i'))
    = inaccessible_files (summary (self i)) ∧
  written i' = written i.

(** The dictionary of the validator the registry chooses for a path. *)
Definition specific_of (w : World) (imp : imports) (file_path : string)
  : dict :=
  match file_handlers w imp !! lower (suffix file_path) with
  | Some handler => handler file_path
  | None => unknown_format
  end.

(** The record [check_file_integrity] returns, as a function of the world
    and of the modules that can be imported when the validator runs. *)
Definition check_result (w : World) (imp : imports) (file_path : string)
  : FileRecord :=
  let result := basic_result w file_path in
  if negb (is_accessible result)
  then set_integrity_status "INACCESSIBLE" result
  else
    determine_status
      (set_specific_checks (specific_of w imp file_path)
         (set_sha256_hash (digest w file_path "sha256")
            (set_md5_hash (digest w file_path "md5") result))).

(** [file_ext in ['.xlsx', '.xls']] *)
Definition is_excel (file_path : string) : bool :=
  in_list (lower (suffix file_path)) [".xlsx"; ".xls"].

(** [install_excel_dependencies] reaches its prompt with standard input at
    its end: pandas cannot be imported, the installation is not automatic
    and [input] raises. *)
Definition install_raises (w : World) (auto_install : bool) (imp : imports)
  : bool :=
  match imp, console_input w with
  | inl _, inl _ => negb auto_install
  | _, _ => false
  end.

(** [_check_excel_enhancement] reaches that prompt: it has not run yet. *)
Definition enhancement_raises (w : World) (i : Interp) : bool :=
  negb (excel_enhancement_checked (self i))
  && install_raises w (auto_install_excel (self i)) (pandas i).

(** [check_file_integrity] reaches it: the file is an accessible Excel
    file. *)
Definition check_raises (w : World) (file_path : string) (i : Interp)
  : bool :=
  is_accessible (basic_result w file_path) && is_excel file_path
  && enhancement_raises w i.


(** The record of a call that returned. *)
Definition the_record (x : (exn + FileRecord) * Interp) : FileRecord :=
  match x.1 with
  | inr r => r
  | inl _ => new_result ""
  end.

(** *** Inputs of the examples *)

Definition empty_unreadable : World := Toy.world [("empty.csv", [], false)].
Definition empty_readable : World := Toy.world [("empty.json", [], true)].
Definition small_pdf : World := Toy.world [("a.pdf", Toy.pdf_small, true)].
Definition latin1_script : World :=
  Toy.world [("n.py", b_ "# caf" ++ [xe9; x0a], true)].
Definition odd_workbook : World :=
  Toy.world_with [("x.xlsx", b_ "hello", true)]
    (inl Toy.unknown_workbook) (inr "root").
Definition broken_document : World :=
  Toy.world_with [("a.xml", b_ "<a", true)]
    (inr []) (inl Toy.not_well_formed).

(** The same world with another outcome of [input], of the opening of the
    report files, or of [os.access]. *)
Definition with_input (line : exn + string) (w : World) : World :=
  {| os_path_exists := os_path_exists w; os_path_isfile := os_path_isfile w;
     os_stat := os_stat w; os_access_R_OK := os_access_R_OK w;
     os_walk := os_walk w; os_listdir := os_listdir w;
     fromtimestamp_isoformat := fromtimestamp_isoformat w;
     now_isoformat := now_isoformat w; now_strftime := now_strftime w;
     open_read := open_read w; hashlib_new := hashlib_new w;
     csv_reader := csv_reader w; json_load := json_load w;
     py_compile := py_compile w; str_splitlines := str_splitlines w;
     str_upper := str_upper w;
     xml_etree_available := xml_etree_available w; ET_parse := ET_parse w;
     ZipFile_open := ZipFile_open w;
     pd_ExcelFile := pd_ExcelFile w; pd_read_excel := pd_read_excel w;
     console_input := line; open_write := open_write w;
     codec_error := codec_error w; round_percentage := round_percentage w;
     pip_install := pip_install w |}.



(** What [input] raises when standard input is at its end. *)
Definition end_of_input : exn := Exn EOFError "EOF when reading a line".

(** A workbook scanned with standard input closed. *)
Definition closed_input : World :=
  with_input (inl end_of_input) (Toy.world [("x.xlsx", b_ "PK", true)]).




(** *** The aggregator *)

Definition statuses : list string :=
  ["INTACT"; "CORRUPTED"; "INACCESSIBLE"; "UNKNOWN"].

(** The records with a given status. *)
Definition count_status (s : string) (rs : list FileRecord) : Z :=
  len (filter (λ r, integrity_status r = Some s) rs).

(** The counters of the summary agree with the list of records. *)
Definition counted (i : Interp) : Prop :=
  let c := self i in
  total_files (summary c) = len (results c) ∧
  intact_files (summary c) = count_status "INTACT" (results c) ∧
  corrupted_files (summary c) = count_status "CORRUPTED" (results c) ∧
  inaccessible_files (summary c) = count_status "INACCESSIBLE" (results c) ∧
  Forall (λ r, ∃ s, integrity_status r = Some s ∧ s ∈ statuses) (results c).

(** What a finished scan leaves in the checker. *)
Definition partitioned (c : Checker) : Prop :=
  total_files (summary c) = len (results c) ∧
  intact_files (summary c) = count_status "INTACT" (results c) ∧
  corrupted_files (summary c) = count_status "CORRUPTED" (results c) ∧
  inaccessible_files (summary c) = count_status "INACCESSIBLE" (results c) ∧
  total_files (summary c)
  = intact_files (summary c) + corrupted_files (summary c)
    + inaccessible_files (summary c) + count_status "UNKNOWN" (results c).

(** *** More specifications *)

(** The extensions of the registry. *)
Definition registered : list string :=
  [".csv"; ".json"; ".xlsx"; ".xls"; ".pdf"; ".txt"; ".py"; ".sql"; ".xml";
   ".zip"; ".rar"].

(** A world where [zipfile.ZipFile] gives [z] for every path. *)
Definition with_zip (z : exn + ZipFile) (w : World) : World :=
  {| os_path_exists := os_path_exists w; os_path_isfile := os_path_isfile w;
     os_stat := os_stat w; os_access_R_OK := os_access_R_OK w;
     os_walk := os_walk w; os_listdir := os_listdir w;
     fromtimestamp_isoformat := fromtimestamp_isoformat w;
     now_isoformat := now_isoformat w; now_strftime := now_strftime w;
     open_read := open_read w; hashlib_new := hashlib_new w;
     csv_reader := csv_reader w; json_load := json_load w;
     py_compile := py_compile w; str_splitlines := str_splitlines w;
     str_upper := str_upper w;
     xml_etree_available := xml_etree_available w; ET_parse := ET_parse w;
     ZipFile_open _ := z;
     pd_ExcelFile := pd_ExcelFile w; pd_read_excel := pd_read_excel w;
     console_input := console_input w; open_write := open_write w;
     codec_error := codec_error w; round_percentage := round_percentage w;
     pip_install := pip_install w |}.

(** A world where [compile] gives [c] for every source. *)
Definition with_compile (c : exn + unit) (w : World) : World :=
  {| os_path_exists := os_path_exists w; os_path_isfile := os_path_isfile w;
     os_stat := os_stat w; os_access_R_OK := os_access_R_OK w;
     os_walk := os_walk w; os_listdir := os_listdir w;
     fromtimestamp_isoformat := fromtimestamp_isoformat w;
     now_isoformat := now_isoformat w; now_strftime := now_strftime w;
     open_read := open_read w; hashlib_new := hashlib_new w;
     csv_reader := csv_reader w; json_load := json_load w;
     py_compile _ _ := c; str_splitlines := str_splitlines w;
     str_upper := str_upper w;
     xml_etree_available := xml_etree_available w; ET_parse := ET_parse w;
     ZipFile_open := ZipFile_open w;
     pd_ExcelFile := pd_ExcelFile w; pd_read_excel := pd_read_excel w;
     console_input := console_input w; open_write := open_write w;
     codec_error := codec_error w; round_percentage := round_percentage w;
     pip_install := pip_install w |}.

(** A world with another answer at the prompt and another outcome of
    [pip]. *)
Definition with_console (answer : exn + string) (pip : exn + imports)
    (w : World) : World :=
  {| os_path_exists := os_path_exists w; os_path_isfile := os_path_isfile w;
     os_stat := os_stat w; os_access_R_OK := os_access_R_OK w;
     os_walk := os_walk w; os_listdir := os_listdir w;
     fromtimestamp_isoformat := fromtimestamp_isoformat w;
     now_isoformat := now_isoformat w; now_strftime := now_strftime w;
     open_read := open_read w; hashlib_new := hashlib_new w;
     csv_reader := csv_reader w; json_load := json_load w;
     py_compile := py_compile w; str_splitlines := str_splitlines w;
     str_upper := str_upper w;
     xml_etree_available := xml_etree_available w; ET_parse := ET_parse w;
     ZipFile_open := ZipFile_open w;
     pd_ExcelFile := pd_ExcelFile w; pd_read_excel := pd_read_excel w;
     console_input := answer; open_write := open_write w;
     codec_error := codec_error w; round_percentage := round_percentage w;
     pip_install := pip |}.

Definition bad_archive : World :=
  with_zip (inr {| testzip := inr (Some "a.txt"); namelist := ["a.txt"] |})
    (Toy.world [("a.zip", b_ "PK", true)]).

Definition bad_script : World :=
  with_compile (inl (Exn SyntaxError "invalid syntax (n.py, line 1)"))
    (Toy.world [("n.py", b_ "def", true)]).

Definition files_of_all_kinds : World :=
  Toy.world [("a.txt", b_ "hi", true); ("b.xlsx", b_ "PK", true);
             ("c.dat", b_ "x", true); ("e.csv", [], true);
             ("l.xls", b_ "x", false)].

(** The attributes of the checker that no method assigns after
    [__init__]. *)
Definition same_settings (c c' : Checker) : Prop :=
  directories c' = directories c ∧ output_format c' = output_format c ∧
  auto_install_excel c' = auto_install_excel c ∧
  recursive c' = recursive c ∧ file_types c' = file_types c.

(** What [install_excel_dependencies] may change. *)
Definition install_step (success : bool) (i i' : Interp) : Prop :=
  self i' = self i ∧ written i' = written i ∧
  (∀ v, pandas i = inr v → i' = i) ∧
  (success = true → ∃ v, pandas i' = inr v).

(** What [_check_excel_enhancement] may change. *)
Definition enhancement_step (i i' : Interp) : Prop :=
  untouched i i' ∧ same_settings (self i) (self i') ∧
  excel_files (summary (self i')) = excel_files (summary (self i)) ∧
  excel_enhancement_checked (self i') = true ∧
  (excel_enhancement_checked (self i) = true → i' = i) ∧
  (∀ v, pandas i = inr v → pandas i' = inr v) ∧
  (enhanced_excel_analysis (summary (self i')) = true →
   enhanced_excel_analysis (summary (self i)) = true ∨ ∃ v, pandas i' = inr v).

(** What [check_file_integrity] may change, for a file that is ([excel])
    or is not an accessible Excel file. *)
Definition check_step (excel : bool) (i i' : Interp) : Prop :=
  untouched i i' ∧ same_settings (self i) (self i') ∧
  excel_files (summary (self i'))
  = excel_files (summary (self i)) + (if excel then 1 else 0) ∧
  excel_enhancement_checked (self i')
  = excel || excel_enhancement_checked (self i) ∧
  (excel = false ∨ excel_enhancement_checked (self i) = true →
   pandas i' = pandas i ∧
   enhanced_excel_analysis (summary (self i'))
   = enhanced_excel_analysis (summary (self i))) ∧
  (∀ v, pandas i = inr v → pandas i' = inr v) ∧
  (enhanced_excel_analysis (summary (self i')) = true →
   enhanced_excel_analysis (summary (self i)) = true ∨ ∃ v, pandas i' = inr v).


(** What the aggregator does with one file: the settings stay, and the
    list of records stays or gets the record of the file at its end. *)
Definition count_step (w : World) (file_path : string) (i i' : Interp)
  : Prop :=
  same_settings (self i) (self i') ∧
  (results (self i') = results (self i) ∨
   ∃ imp, results (self i')
          = results (self i) ++ [check_result w imp file_path]).

(** A scan keeps the settings and the records it found, in their order. *)
Definition grows (i i' : Interp) : Prop :=
  same_settings (self i) (self i') ∧
  results (self i) `prefix_of` results (self i').

(** The records added since [i] are of files the filter lets through. *)
Definition filtered (i i' : Interp) : Prop :=
  same_settings (self i) (self i') ∧
  ∀ r, r ∈ results (self i') →
       r ∈ results (self i) ∨ should_check_file (self i) (file_path r) = true.
(* ================================================================== *)
(** ** Reasoning about computations                                    *)
(* ================================================================== *)

Section wp.
Context {S : Type}.
Implicit Types (s : S) (E : exn → S → Prop).

Lemma wp_ret {A} (a : A) (Q : A → S → Prop) E s :
  Q a s → wp (mret a) Q E s.
Proof. done. Qed.

Lemma wp_bind {A B} (m : M S A) (f : A → M S B) (Q : B → S → Prop) E s :
  wp m (λ a s', wp (f a) Q E s') E s → wp (m ≫= f) Q E s.
Proof.
  unfold wp, mbind, M_bind. destruct (m s) as [[e|a] s']; done.
Qed.

Lemma wp_try {A} (m : M S A) h (Q : A → S → Prop) E s :
  wp m Q (λ e s', wp (h e) Q E s') s → wp (try_except m h) Q E s.
Proof.
  unfold wp, try_except. destruct (m s) as [[e|a] s']; done.
Qed.

Lemma wp_on_class {A} c (h k : exn → M S A) e (Q : A → S → Prop) E s :
  (is_class c e = true → wp (h e) Q E s) →
  (is_class c e = false → wp (k e) Q E s) →
  wp (on_class c h k e) Q E s.
Proof. unfold on_class. destruct (is_class c e); auto. Qed.

Lemma wp_raise {A} e (Q : A → S → Prop) E s : E e s → wp (raise e) Q E s.
Proof. done. Qed.

Lemma wp_get (Q : S → S → Prop) E s : Q s s → wp get Q E s.
Proof. done. Qed.

Lemma wp_modify f (Q : unit → S → Prop) E s : Q () (f s) → wp (modify f) Q E s.
Proof. done. Qed.

Lemma wp_call {A} (r : exn + A) (Q : A → S → Prop) E s :
  match r with inr a => Q a s | inl e => E e s end → wp (call r) Q E s.
Proof. unfold wp, call. destruct r; done. Qed.

Lemma wp_when (b : bool) m (Q : unit → S → Prop) E s :
  (b = true → wp m Q E s) → (b = false → Q () s) → wp (when b m) Q E s.
Proof.
  unfold when. destruct b; intros Ht Hf; [auto | apply wp_ret; auto].
Qed.

Lemma wp_mono {A} (m : M S A) (Q Q' : A → S → Prop) E E' s :
  wp m Q E s → (∀ a s', Q a s' → Q' a s') → (∀ e s', E e s' → E' e s') →
  wp m Q' E' s.
Proof.
  unfold wp. destruct (m s) as [[e|a] s']; auto.
Qed.

(** A loop keeps what each of its rounds keeps. *)
Lemma wp_for_each {A} (l : list A) body (I : S → Prop) E s :
  (∀ x s', x ∈ l → I s' → wp (body x) (λ _, I) E s') →
  I s → wp (for_each l body) (λ _, I) E s.
Proof.
  revert s. induction l as [|x l IH]; intros s Hbody HI; simpl.
  - done.
  - apply wp_bind. eapply wp_mono.
    + apply Hbody; [left | done].
    + intros u s' HI'. apply IH; [|done].
      intros y s'' Hy. apply Hbody. by right.
    + done.
Qed.

(** What a computation that returns gives. *)
Lemma wp_returns {A} (m : M S A) (Q : A → S → Prop) s :
  wp m Q never s → ∃ a s', m s = (inr a, s') ∧ Q a s'.
Proof.
  unfold wp. destruct (m s) as [[e|a] s']; [done | eauto].
Qed.

Lemma wp_of_eq {A} (m : M S A) (Q : A → S → Prop) E s a s' :
  m s = (inr a, s') → wp m Q E s → Q a s'.
Proof. unfold wp. by intros ->. Qed.
End wp.

Lemma wp_log line (Q : unit → Interp → Prop) E i :
  Q () {| self := self i; pandas := pandas i;
          console := console i ++ [line]; written := written i |} →
  wp (log line) Q E i.
Proof. done. Qed.

Lemma wp_setitem k v (Q : unit → dict → Prop) E (d : dict) :
  Q () (<[k := v]> d) → wp (setitem k v) Q E d.
Proof. done. Qed.

(** A property of the dictionary a validator returns, however it ends. *)
Lemma run_dict_wp (d : dict) (m : M dict unit) (P : dict → Prop) :
  wp m (λ _, P) (λ _, P) d → P (run_dict d m).
Proof.
  unfold wp, run_dict. destruct (m d) as [[e|a] d']; done.
Qed.

(** One step of symbolic execution. *)
Ltac wp_step :=
  lazymatch goal with
  | |- wp (mret _) _ _ _ => apply wp_ret
  | |- wp (_ ≫= _) _ _ _ => apply wp_bind
  | |- wp (try_except _ _) _ _ _ => apply wp_try
  | |- wp (on_class _ _ _ _) _ _ _ => apply wp_on_class; intros ?
  | |- wp (raise _) _ _ _ => apply wp_raise
  | |- wp get _ _ _ => apply wp_get
  | |- wp (modify _) _ _ _ => apply wp_modify
  | |- wp (setitem _ _) _ _ _ => apply wp_setitem
  | |- wp (log _) _ _ _ => apply wp_log
  | |- wp (set_pandas _) _ _ _ => apply wp_modify
  | |- wp (call (inr _)) _ _ _ => apply wp_call
  | |- wp (call (inl _)) _ _ _ => apply wp_call
  | |- wp (call (match ?x with _ => _ end)) _ _ _ =>
    first [ match goal with H : x = _ |- _ => rewrite H end
          | destruct x eqn:? ]
  | |- wp (call ?r) _ _ _ =>
    first [ match goal with H : r = _ |- _ => rewrite H end
          | apply wp_call; destruct r eqn:? ]
  | |- wp (when ?b _) _ _ _ => apply wp_when; intros ?
  | |- wp (if ?b then _ else _) _ _ _ => destruct b eqn:?
  | |- wp (match ?x with (_, _) => _ end) _ _ _ => destruct x eqn:?
  | |- wp (let '(_, _) := ?x in _) _ _ _ => destruct x eqn:?
  end.

Ltac wp_steps := repeat (wp_step; simpl).

(** Symbolic execution of a validator: every call into the world is split
    into its two outcomes. *)
Ltac wp_dict :=
  repeat (first
    [ wp_step
    | match goal with
      | |- context [match ?x with inl _ => _ | inr _ => _ end] =>
        destruct x eqn:?
      end ]; simpl).
(* ================================================================== *)
(** ** The components of [check_file_integrity]                        *)
(* ================================================================== *)

Lemma add_lines_nil i : add_lines [] i = i.
Proof. destruct i. unfold add_lines. simpl. by rewrite app_nil_r. Qed.

Lemma add_lines_add l1 l2 i : add_lines l2 (add_lines l1 i) = add_lines (l1 ++ l2) i.
Proof. unfold add_lines. simpl. by rewrite app_assoc. Qed.

Lemma basic_accessibility_eq w p i :
  ∃ lines, _check_basic_accessibility w p i = (inr (basic_result w p), add_lines lines i).
Proof.
  unfold _check_basic_accessibility, basic_result.
  destruct (probe w p (new_result p)) as [[e|[]] r].
  - eexists [_]. reflexivity.
  - exists []. by rewrite add_lines_nil.
Qed.

Lemma wp_basic_accessibility w p (Q : FileRecord → Interp → Prop) E i :
  (∀ lines, Q (basic_result w p) (add_lines lines i)) →
  wp (_check_basic_accessibility w p) Q E i.
Proof.
  intros HQ. destruct (basic_accessibility_eq w p i) as [lines Heq].
  unfold wp. rewrite Heq. apply HQ.
Qed.

(** The four outcomes of the prober. *)
Lemma basic_result_cases w p :
  let r := basic_result w p in
  file_path r = p ∧ md5_hash r = None ∧ sha256_hash r = None ∧
  specific_checks r = None ∧ integrity_status r = None ∧ warning r = None ∧
  ((is_accessible r = false ∧ is_readable r = false) ∨
   (is_accessible r = true ∧ is_readable r = os_access_R_OK w p ∧
    os_path_exists w p = true ∧
    ∃ st, os_stat w p = inr st ∧ file_size r = st_size st)).
Proof.
  unfold basic_result, probe.
  destruct (os_path_exists w p) eqn:Hex; simpl; [|naive_solver].
  unfold mbind, M_bind, call; simpl.
  destruct (os_stat w p) as [e|st]; simpl; [naive_solver|].
  destruct (fromtimestamp_isoformat w (st_mtime st)) as [e|iso]; simpl;
    [naive_solver|].
  destruct (os_access_R_OK w p); simpl; naive_solver.
Qed.

Lemma wp_calculate_file_hash w p alg (Q : option string → Interp → Prop) E i :
  (∀ lines, Q (digest w p alg) (add_lines lines i)) →
  wp (calculate_file_hash w p alg) Q E i.
Proof.
  unfold calculate_file_hash, digest.
  destruct (hashlib_new w alg) as [e|h] eqn:Hh;
    [|destruct (open_read w p) as [e|f] eqn:Ho]; intros HQ;
    apply wp_try, wp_bind, wp_call; rewrite ?Hh; simpl.
  - apply (HQ [_]).
  - apply wp_bind, wp_call. apply (HQ [_]).
  - apply wp_bind, wp_call. simpl.
    specialize (HQ []). by rewrite add_lines_nil in HQ.
Qed.

Lemma untouched_refl i : untouched i i.
Proof. by repeat split. Qed.

Lemma untouched_trans i1 i2 i3 :
  untouched i1 i2 → untouched i2 i3 → untouched i1 i3.
Proof. unfold untouched. intuition congruence. Qed.

Lemma untouched_add_lines lines i : untouched i (add_lines lines i).
Proof. by repeat split. Qed.

Ltac untouched_tac :=
  match goal with
  | H : ∀ a i', untouched _ i' → _ |- _ =>
    apply H; repeat split; simpl; try done
  end.

Lemma wp_check_pandas_available (Q : bool * PyVal → Interp → Prop) E i :
  Q (match pandas i with
     | inr version => (true, VStr version)
     | inl e => (false, VList (VStr <$> missing_modules_of e))
     end) i →
  wp check_pandas_available Q E i.
Proof.
  intros HQ. unfold check_pandas_available. apply wp_bind, wp_get.
  destruct (pandas i); by apply wp_ret.
Qed.

Ltac wp_auto :=
  repeat (first
    [ wp_step
    | lazymatch goal with
      | |- wp check_pandas_available _ _ _ =>
        apply wp_check_pandas_available
      end
    | match goal with
      | |- context [match ?x with inl _ => _ | inr _ => _ end] =>
        destruct x eqn:?
      end ]; simpl).

(** [install_excel_dependencies] raises at its prompt and nowhere else. *)
Lemma wp_install_excel_dependencies w auto
    (Q : bool * string → Interp → Prop) E i :
  (∀ a i', untouched i i' →
           install_raises w auto (pandas i) = false → Q a i') →
  (∀ e i', untouched i i' → install_raises w auto (pandas i) = true →
           console_input w = inl e → E e i') →
  wp (install_excel_dependencies w auto) Q E i.
Proof.
  intros HQ HE. unfold install_excel_dependencies, install_raises in *.
  apply wp_bind, wp_check_pandas_available.
  destruct (pandas i) as [msg|version] eqn:Himp; simpl.
  2:{ apply wp_ret, HQ; [apply untouched_refl|done]. }
  destruct (console_input w) as [e|line] eqn:Hin;
    destruct auto; simpl; wp_auto;
    first [ apply HQ; [by repeat split|done]
          | apply HE; [by repeat split|done|done] ].
Qed.

Lemma wp_check_excel_enhancement w (Q : unit → Interp → Prop) E i :
  (∀ a i', untouched i i' → enhancement_raises w i = false → Q a i') →
  (∀ e i', untouched i i' → enhancement_raises w i = true →
           console_input w = inl e → E e i') →
  wp (_check_excel_enhancement w) Q E i.
Proof.
  intros HQ HE. unfold _check_excel_enhancement, enhancement_raises in *.
  apply wp_bind, wp_get.
  destruct (excel_enhancement_checked (self i)); simpl in *.
  { apply wp_ret. apply HQ; [apply untouched_refl|done]. }
  apply wp_bind, wp_modify, wp_bind, wp_check_pandas_available. simpl.
  destruct (pandas i) as [msg|version] eqn:Himp; simpl.
  2:{ apply wp_modify. apply HQ; [by repeat split|done]. }
  apply wp_bind, wp_log, wp_bind, wp_install_excel_dependencies; simpl;
    rewrite Himp.
  - intros [success message] i' Hi' Hr.
    assert (Hu : ∀ i'', untouched i' i'' → Q () i'').
    { intros i'' Hi''. apply HQ; [|done]. eapply untouched_trans; [|done].
      eapply untouched_trans; [|done]. by repeat split. }
    destruct success; wp_steps; apply Hu; by repeat split.
  - intros e i' Hi' Hr He. apply HE; [|done|done].
    eapply untouched_trans; [|done]. by repeat split.
Qed.

(** [check_file_integrity] returns the record [check_result] describes, or
    raises at the prompt. *)
Lemma wp_check_file_integrity w p (Q : FileRecord → Interp → Prop) E i :
  (∀ i', untouched i i' →
         (is_accessible (basic_result w p) = false →
          ∃ lines, i' = add_lines lines i) →
         check_raises w p i = false →
         Q (check_result w (pandas i') p) i') →
  (∀ e i', untouched i i' → check_raises w p i = true →
           console_input w = inl e → E e i') →
  wp (check_file_integrity w p) Q E i.
Proof.
  intros HQ HE. unfold check_file_integrity, check_raises in *.
  apply wp_bind, wp_log, wp_bind, wp_basic_accessibility. intros l0.
  unfold check_result in HQ.
  destruct (is_accessible (basic_result w p)) eqn:Hacc;
    cbn [andb negb] in *; simpl.
  - apply wp_bind, wp_calculate_file_hash. intros l1.
    apply wp_bind, wp_calculate_file_hash. intros l2.
    apply wp_bind.
    set (i1 := add_lines l2 _).
    assert (H1 : untouched i i1) by by repeat split.
    assert (Hend : ∀ i', untouched i1 i' →
      is_excel p && enhancement_raises w i = false →
      wp (i0 ← get;
          mret (determine_status
            match file_handlers w (pandas i0) !! lower (suffix p) with
            | Some handler => set_specific_checks (handler p)
                (set_sha256_hash (digest w p "sha256")
                   (set_md5_hash (digest w p "md5") (basic_result w p)))
            | None => set_specific_checks unknown_format
                (set_sha256_hash (digest w p "sha256")
                   (set_md5_hash (digest w p "md5") (basic_result w p)))
            end)) Q E i').
    { intros i' Hi' Hr. apply wp_bind, wp_get, wp_ret.
      specialize (HQ i' (untouched_trans _ _ _ H1 Hi')).
      unfold specific_of in HQ.
      destruct (file_handlers w (pandas i') !! lower (suffix p));
        apply HQ; done. }
    apply wp_when; intros Hx;
      first [ change (is_excel p = true) in Hx
            | change (is_excel p = false) in Hx ];
      rewrite Hx in *; cbn [andb] in *.
    + apply wp_bind, wp_check_excel_enhancement.
      * intros _ i' Hi' Hr. apply wp_modify. apply Hend; [|done].
        eapply untouched_trans; [done|]. by repeat split.
      * intros e i' Hi' Hr He. apply HE; [|done|done].
        eapply untouched_trans; [|done]. done.
    + apply Hend; [apply untouched_refl|done].
  - apply wp_ret. apply HQ; [by repeat split| |done].
    intros _. eexists (_ :: l0). unfold add_lines. simpl.
    by rewrite <- app_assoc.
Qed.

Lemma check_result_status w imp p :
  ∃ status, integrity_status (check_result w imp p) = Some status ∧
    status ∈ ["INTACT"; "CORRUPTED"; "INACCESSIBLE"; "UNKNOWN"].
Proof.
  unfold check_result, determine_status.
  repeat match goal with
         | |- context [if ?b then _ else _] => destruct b
         end; simpl; eexists; (split; [reflexivity|]); set_solver.
Qed.

Lemma check_result_accessible w imp p :
  is_accessible (check_result w imp p) = is_accessible (basic_result w p).
Proof.
  unfold check_result, determine_status.
  repeat match goal with
         | |- context [if ?b then _ else _] => destruct b eqn:?
         end; simpl; done.
Qed.






Lemma check_file_integrity_eq w p i r i' :
  check_file_integrity w p i = (inr r, i') →
  r = check_result w (pandas i') p ∧ untouched i i'.
Proof.
  intros Heq.
  apply (wp_of_eq _ (λ r i', r = check_result w (pandas i') p
                             ∧ untouched i i') (λ _ _, True) _ _ _ Heq).
  apply wp_check_file_integrity; auto.
Qed.

(** The check returns unless it reaches the prompt at the end of the
    input; then it raises what [input] raised. *)
Lemma check_file_integrity_cases w p i :
  if check_raises w p i
  then ∃ e i', check_file_integrity w p i = (inl e, i')
               ∧ console_input w = inl e ∧ untouched i i'
  else ∃ i', check_file_integrity w p i
             = (inr (check_result w (pandas i') p), i') ∧ untouched i i'.
Proof.
  pose proof (wp_check_file_integrity w p
    (λ r i', check_raises w p i = false ∧
             r = check_result w (pandas i') p ∧ untouched i i')
    (λ e i', check_raises w p i = true ∧
             console_input w = inl e ∧ untouched i i') i) as H.
  unfold wp in H.
  destruct (check_file_integrity w p i) as [[e|r] i'];
    destruct H as (Hr & H1 & H2); try (by auto); rewrite Hr.
  - eauto.
  - subst r. eauto.
Qed.

Lemma check_file_integrity_returns w p i :
  check_raises w p i = false →
  ∃ r i', check_file_integrity w p i = (inr r, i').
Proof.
  intros Hr. pose proof (check_file_integrity_cases w p i) as H.
  rewrite Hr in H. destruct H as (i' & H & _). eauto.
Qed.

(** What [determine_status] reads, it leaves. *)
Lemma determine_status_keeps r :
  is_accessible (determine_status r) = is_accessible r ∧
  is_readable (determine_status r) = is_readable r ∧
  file_size (determine_status r) = file_size r ∧
  specific_checks (determine_status r) = specific_checks r ∧
  md5_hash (determine_status r) = md5_hash r ∧
  sha256_hash (determine_status r) = sha256_hash r.
Proof.
  unfold determine_status.
  repeat match goal with
         | |- context [if ?b then _ else _] => destruct b eqn:?
         end; simpl; done.
Qed.

(** The record of an accessible file, field by field. *)
Lemma check_result_fields w imp p :
  is_accessible (basic_result w p) = true →
  let r := check_result w imp p in
  is_readable r = is_readable (basic_result w p) ∧
  file_size r = file_size (basic_result w p) ∧
  specific_checks r = Some (specific_of w imp p) ∧
  md5_hash r = Some (digest w p "md5") ∧
  sha256_hash r = Some (digest w p "sha256").
Proof.
  intros Hacc. unfold check_result. rewrite Hacc. simpl.
  match goal with
  | |- context [determine_status ?x] =>
    destruct (determine_status_keeps x) as (_ & -> & -> & -> & -> & ->)
  end.
  done.
Qed.

Lemma has_key_true k (d : dict) : has_key k d = true ↔ is_Some (d !! k).
Proof.
  unfold has_key, is_Some. destruct (d !! k); split; intros H;
    [eauto | done | done | by destruct H].
Qed.

Lemma has_key_false k (d : dict) : has_key k d = false ↔ d !! k = None.
Proof. unfold has_key. by destruct (d !! k). Qed.

(** The decision for a file that is readable and not empty. *)
Lemma determine_status_content r specific :
  is_readable r = true → file_size r ≠ 0 → specific_checks r = Some specific →
  integrity_status (determine_status r)
  = Some (if has_key "error" specific then "CORRUPTED" else "INTACT").
Proof.
  intros Hr Hs Hsp. unfold determine_status, in_specific_checks.
  rewrite Hr, Hsp. destruct (Z.eqb_spec (file_size r) 0); [done|].
  by destruct (has_key "error" specific).
Qed.

Lemma startswith_take n (h p : bytes) :
  (length p ≤ n)%nat → startswith (take n h) p = startswith h p.
Proof.
  revert n h. induction p as [|x p IH]; intros n h Hn;
    [by destruct (take n h), h|].
  destruct n as [|n]; simpl in Hn; [lia|].
  destruct h as [|y h]; simpl; [done|].
  rewrite IH by lia. done.
Qed.

(** The PDF validator on a file the probe of the trailer cannot seek in. *)
Lemma pdf_short_file_error w p f :
  open_read w p = inr f → (length f < 1024)%nat →
  _check_pdf_file w p !! "error" = Some (VStr "[Errno 22] Invalid argument").
Proof.
  intros Hopen Hlen. unfold _check_pdf_file.
  apply run_dict_wp. apply wp_try, wp_bind, wp_call. rewrite Hopen.
  unfold seek_end_read.
  destruct (Nat.ltb_spec (length f) 1024); [|lia].
  wp_dict; by simplify_map_eq.
Qed.

(** The PDF validator on a file of 1024 bytes or more: no error, the header
    decides [format_valid] and the trailer decides [has_eof]. *)
Lemma pdf_long_file w p f :
  open_read w p = inr f → (1024 ≤ length f)%nat →
  _check_pdf_file w p !! "error" = None ∧
  _check_pdf_file w p !! "format_valid" = Some (VBool (startswith f sig_pdf)) ∧
  _check_pdf_file w p !! "has_eof"
  = (if contains (drop (length f - 1024) f) eof_marker
     then Some (VBool true) else None).
Proof.
  intros Hopen Hlen. unfold _check_pdf_file.
  rewrite <- (startswith_take 8 f sig_pdf) by (simpl; lia).
  apply run_dict_wp. apply wp_try, wp_bind, wp_call. rewrite Hopen.
  unfold seek_end_read.
  destruct (Nat.ltb_spec (length f) 1024); [lia|].
  wp_dict;
    repeat match goal with
           | H : startswith _ _ = _ |- _ => rewrite H; clear H
           | H : contains _ _ = _ |- _ => rewrite H; clear H
           end; by simplify_map_eq.
Qed.

(** The status of a file that is accessible, readable and not empty. *)
Lemma check_status_by_error w p i i' r :
  check_file_integrity w p i = (inr r, i') →
  is_accessible r = true → is_readable r = true → file_size r ≠ 0 →
  specific_checks r = Some (specific_of w (pandas i') p) ∧
  integrity_status r
  = Some (if has_key "error" (specific_of w (pandas i') p)
          then "CORRUPTED" else "INTACT").
Proof.
  intros Heq Hacc Hread Hsize.
  apply check_file_integrity_eq in Heq as [-> _].
  rewrite check_result_accessible in Hacc.
  destruct (check_result_fields w (pandas i') p Hacc) as (Hr & Hs & Hsp & _).
  split; [done|].
  unfold check_result. rewrite Hacc. simpl.
  apply determine_status_content; simpl;
    [by rewrite <- Hr | by rewrite <- Hs | done].
Qed.

(** The registry, extension by extension. *)
Lemma specific_of_ext w imp p :
  let ext := lower (suffix p) in
  (ext = ".xlsx" ∨ ext = ".xls" → specific_of w imp p = _check_excel_file w imp p) ∧
  (ext = ".pdf" → specific_of w imp p = _check_pdf_file w p) ∧
  (ext = ".py" → specific_of w imp p = _check_python_file w p) ∧
  (ext = ".xml" → specific_of w imp p = _check_xml_file w p).
Proof.
  unfold specific_of, file_handlers. simpl.
  repeat split; intros H; [destruct H as [H|H]|..]; rewrite H;
    by simplify_map_eq.
Qed.

(** The XML validator, outcome by outcome. *)
Lemma xml_cases w p :
  let d := _check_xml_file w p in
  if xml_etree_available w then
    match ET_parse w p with
    | inr root_tag =>
      d !! "error" = None ∧ d !! "xml_error" = None ∧
      d !! "format_valid" = Some (VBool true) ∧
      d !! "well_formed" = Some (VBool true)
    | inl e =>
      d !! "well_formed" = Some (VBool false) ∧
      if is_class ParseError e then
        d !! "error" = None ∧ d !! "xml_error" = Some (VStr (str e)) ∧
        d !! "format_valid" = Some (VBool true)
      else
        d !! "error" = Some (VStr (str e)) ∧ d !! "xml_error" = None ∧
        d !! "format_valid" = Some (VBool false)
    end
  else d !! "error" = Some (VStr "xml.etree não disponível")
       ∧ d !! "xml_error" = None.
Proof.
  unfold _check_xml_file.
  destruct (xml_etree_available w); [|by simplify_map_eq].
  destruct (ET_parse w p) as [e|root] eqn:Hp.
  - destruct (is_class ParseError e) eqn:Hc;
      (apply run_dict_wp, wp_try, wp_bind, wp_call; rewrite ?Hp;
       unfold on_class; rewrite ?Hc;
       wp_dict; by simplify_map_eq).
  - apply run_dict_wp, wp_try, wp_bind, wp_call. rewrite ?Hp.
    wp_dict; by simplify_map_eq.
Qed.

(** The validator of Python sources on bytes that are not UTF-8. *)
Lemma python_not_utf8 w p f :
  open_read w p = inr f → utf8_decode f = None →
  _check_python_file w p !! "error"
  = Some (VStr (str (unicode_error (codec_error w "utf-8" f)))) ∧
  _check_python_file w p !! "format_valid" = Some (VBool false) ∧
  _check_python_file w p !! "syntax_error" = None.
Proof.
  intros Hopen Hutf. unfold _check_python_file, read_text.
  apply run_dict_wp. unfold decode. simpl.
  wp_dict; by simplify_map_eq.
Qed.

(** The validator of text on the same bytes: the second encoding reads
    them. *)
Lemma text_not_utf8 w p f :
  open_read w p = inr f → utf8_decode f = None →
  _check_text_file w p !! "error" = None ∧
  _check_text_file w p !! "format_valid" = Some (VBool true) ∧
  _check_text_file w p !! "encoding" = Some (VStr "latin1").
Proof.
  intros Hopen Hutf. unfold _check_text_file, encodings.
  apply run_dict_wp. simpl. unfold read_text, decode. simpl.
  wp_dict; by simplify_map_eq.
Qed.

(** And the validator of CSV, when [csv.reader] accepts the text. *)
Lemma csv_not_utf8 w p f rows :
  open_read w p = inr f → utf8_decode f = None →
  csv_reader w (universal_newlines (Byte.to_N <$> f))
    (detect_separator (take 1024 (universal_newlines (Byte.to_N <$> f))))
  = inr rows →
  _check_csv_file w p !! "error" = None ∧
  _check_csv_file w p !! "format_valid" = Some (VBool true) ∧
  _check_csv_file w p !! "encoding" = Some (VStr "latin1").
Proof.
  intros Hopen Hutf Hrows. unfold _check_csv_file, encodings.
  apply run_dict_wp. cbn [csv_encodings]. unfold read_text, decode.
  wp_dict; by simplify_map_eq.
Qed.

(** The Excel validator on a file that can be opened: the signature alone
    decides [format_valid]; an ['error'] comes from the advanced tier only,
    when pandas is imported and cannot open the workbook. *)
Lemma excel_cases w imp p f :
  open_read w p = inr f →
  let d := _check_excel_file w imp p in
  let ext := lower (suffix p) in
  d !! "format_valid"
  = Some (VBool ((String.eqb ext ".xlsx" && startswith f sig_zip)
                 || (String.eqb ext ".xls" && startswith f sig_ole))) ∧
  match imp with
  | inl msg => d !! "error" = None ∧ is_Some (d !! "warning")
  | inr version =>
    match pd_ExcelFile w p with
    | inl e => is_Some (d !! "error")
    | inr _ => d !! "error" = None
    end
  end.
Proof.
  intros Hopen. simpl.
  rewrite <- (startswith_take 8 f sig_zip), <- (startswith_take 8 f sig_ole)
    by (simpl; lia).
  unfold _check_excel_file, excel_basic, excel_advanced, excel_import_error.
  apply run_dict_wp. rewrite Hopen.
  destruct (String.eqb (lower (suffix p)) ".xlsx") eqn:Hx;
    [apply String.eqb_eq in Hx; rewrite Hx; simpl|];
    [|destruct (String.eqb (lower (suffix p)) ".xls") eqn:Hl];
    destruct imp as [msg|version];
    wp_dict;
    repeat match goal with
           | H : startswith _ _ = _ |- _ => rewrite H; clear H
           end;
    simplify_map_eq; eauto.
Qed.

(* ================================================================== *)
(** ** The scans keep the counters in step with the records            *)
(* ================================================================== *)

Lemma wp_trivial {S A} (m : M S A) s : wp m (λ _ _, True) (λ _ _, True) s.
Proof. unfold wp. by destruct (m s) as [[e|a] s']. Qed.

Lemma count_status_app s rs r :
  count_status s (rs ++ [r])
  = count_status s rs + (if bool_decide (integrity_status r = Some s) then 1 else 0).
Proof.
  unfold count_status, len. rewrite filter_app, length_app.
  rewrite filter_cons, filter_nil.
  case_bool_decide; case_decide; try done; simpl; lia.
Qed.

Lemma counted_untouched i i' : untouched i i' → counted i → counted i'.
Proof.
  unfold untouched, counted.
  intros (-> & -> & -> & -> & -> & _). done.
Qed.

Lemma counted_partitioned i : counted i → partitioned (self i).
Proof.
  unfold counted, partitioned. intros (Ht & Hi & Hc & Hn & Hall).
  repeat (split; [done|]). rewrite Ht, Hi, Hc, Hn.
  revert Hall. generalize (results (self i)). clear. intros rs.
  induction 1 as [|r rs (s & Hs & Hin) _ IH]; [done|].
  change (r :: rs) with ([r] ++ rs).
  unfold count_status, len in *. rewrite !filter_app, !length_app.
  rewrite !filter_cons, !filter_nil. rewrite Hs.
  unfold statuses in Hin.
  repeat match goal with
         | H : _ ∈ _ :: _ |- _ => apply elem_of_cons in H as [->|H]
         | H : _ ∈ [] |- _ => by apply elem_of_nil in H
         end;
    repeat case_decide; try congruence; simpl in *; lia.
Qed.

(** One file through the aggregator: the counters stay in step, also when
    the check raises. *)
Lemma wp_count_file w p i :
  counted i → wp (count_file w p) (λ _, counted) (λ _, counted) i.
Proof.
  intros Hi. unfold count_file.
  apply wp_bind, wp_check_file_integrity;
    [|intros e i1 Hu _ _; by apply (counted_untouched _ _ Hu)].
  intros i1 Hu _ _.
  apply (counted_untouched _ _ Hu) in Hi.
  destruct (check_result_status w (pandas i1) p) as (s & Hs & Hin).
  set (r := check_result w (pandas i1) p) in *.
  apply wp_bind, wp_modify, wp_bind, wp_modify, wp_bind.
  unfold status_of. simpl. rewrite Hs. apply wp_ret.
  destruct Hi as (Ht & Hn & Hc & Ha & Hall).
  assert (Hall' : Forall (λ r, ∃ s, integrity_status r = Some s ∧ s ∈ statuses)
                    (results (self i1) ++ [r])).
  { apply Forall_app. split; [done|]. apply Forall_singleton. eauto. }
  unfold statuses in Hin.
  repeat match goal with
         | H : _ ∈ _ :: _ |- _ => apply elem_of_cons in H as [->|H]
         | H : _ ∈ [] |- _ => by apply elem_of_nil in H
         end; simpl;
    (apply wp_modify || apply wp_ret);
    unfold counted; simpl; rewrite !count_status_app, Hs;
    unfold len in *; rewrite length_app; simpl;
    repeat case_bool_decide; try congruence;
    repeat split; first [lia | done].
Qed.

Lemma counted_log line i :
  counted i →
  counted {| self := self i; pandas := pandas i;
             console := console i ++ [line]; written := written i |}.
Proof. done. Qed.

(** [FileIntegrityChecker.scan_directories] returns, and keeps the
    counters. *)
Lemma wp_scan_directories w i :
  counted i → wp (scan_directories w) (λ _, counted) never i.
Proof.
  intros Hi. unfold scan_directories.
  apply wp_bind, wp_get, wp_bind, wp_log, wp_bind.
  eapply wp_mono; [apply (wp_for_each _ _ counted)| |done].
  - intros directory i1 _ H1. apply wp_bind, wp_log.
    destruct (os_path_exists w directory); simpl; [|by apply wp_log].
    apply wp_for_each; [|done]. intros [[root dirs] files] i2 _ H2.
    apply wp_for_each; [|done]. intros file i3 _ H3.
    apply wp_try. eapply wp_mono; [by apply wp_count_file|done|].
    intros e i4 H4. by apply wp_log.
  - by apply counted_log.
  - intros ? i1 H1. simpl. apply wp_bind, wp_get, wp_log. done.
Qed.

(** [CustomFileChecker.process_file] never raises. *)
Lemma wp_process_file w p i :
  counted i → wp (process_file w p) (λ _, counted) never i.
Proof.
  intros Hi. unfold process_file. apply wp_try, wp_bind.
  eapply wp_mono; [by apply wp_count_file| |].
  - intros ? i1 H1. simpl. apply wp_bind, wp_get.
    apply wp_when; intros _; [by apply wp_log|done].
  - intros e i1 H1. by apply wp_log.
Qed.

(** [CustomFileChecker.scan_directories] keeps the counters, also when a
    directory cannot be listed. *)
Lemma wp_custom_scan_directories w i :
  counted i →
  wp (custom_scan_directories w) (λ _, counted) (λ _, counted) i.
Proof.
  intros Hi. unfold custom_scan_directories.
  apply wp_bind, wp_get, wp_bind, wp_log, wp_bind.
  eapply wp_mono with (E := λ _, counted);
    [apply (wp_for_each _ _ counted)| |done].
  - intros directory i1 _ H1. apply wp_bind, wp_log.
    destruct (os_path_exists w directory); simpl; [|by apply wp_log].
    destruct (recursive (self i)).
    + apply wp_for_each; [|done]. intros [[root dirs] files] i2 _ H2.
      apply wp_for_each; [|done]. intros file i3 _ H3.
      apply wp_when; intros _; [|done].
      eapply wp_mono; [by apply wp_process_file|done|done].
    + apply wp_try, wp_bind, wp_call.
      destruct (os_listdir w directory) as [e|items].
      * apply wp_on_class; intros _; [by apply wp_log|by apply wp_raise].
      * eapply wp_mono with (E := never);
          [apply (wp_for_each _ _ counted); [|by apply counted_log]
          |done|done].
        intros item i2 _ H2. apply wp_when; intros _; [|done].
        eapply wp_mono; [by apply wp_process_file|done|done].
  - by apply counted_log.
  - intros ? i1 H1. simpl. apply wp_bind, wp_get, wp_log. done.
Qed.

Lemma counted_init c imp con wr :
  results c = [] → total_files (summary c) = 0 →
  intact_files (summary c) = 0 → corrupted_files (summary c) = 0 →
  inaccessible_files (summary c) = 0 →
  counted {| self := c; pandas := imp; console := con; written := wr |}.
Proof.
  intros Hr Ht Hi Hc Hn. unfold counted. simpl.
  rewrite Hr, Ht, Hi, Hc, Hn. by repeat split.
Qed.

Lemma counted_write name i :
  counted i →
  counted {| self := self i; pandas := pandas i; console := console i;
             written := written i ++ [name] |}.
Proof. done. Qed.


(* ================================================================== *)
(** ** Properties of the classification engine                         *)
(* ================================================================== *)




(** C4: for a file that is accessible, readable and not empty, the record
    holds the dictionary of the validator the registry chose, and the status
    is CORRUPTED exactly when that dictionary has the key ['error'];
    otherwise it is INTACT.  No other key takes part: with one more key
    that is not ['error'] (a ['warning'], ['is_corrupted'], ['xml_error'])
    the decision is the same. *)
Theorem C4_corrupted_iff_error (w : World) (file_path : string)
    (i i' : Interp) (result : FileRecord) :
  check_file_integrity w file_path i = (inr result, i') →
  is_accessible result = true →
  is_readable result = true →
  file_size result ≠ 0 →
  ∃ specific,
    specific_checks result = Some specific ∧
    specific = specific_of w (pandas i') file_path ∧
    (integrity_status result = Some "CORRUPTED"
     ↔ is_Some (specific !! "error")) ∧
    (integrity_status result = Some "INTACT" ↔ specific !! "error" = None) ∧
    ∀ k v, k ≠ "error" →
      integrity_status
        (determine_status (set_specific_checks (<[k := v]> specific) result))
      = integrity_status result.
Proof.
  intros Heq Hacc Hread Hsize.
  destruct (check_status_by_error _ _ _ _ _ Heq Hacc Hread Hsize)
    as [Hsp Hst].
  exists (specific_of w (pandas i') file_path).
  split; [done|]. split; [done|].
  rewrite Hst. rewrite <- has_key_true, <- has_key_false.
  split; [|split].
  - destruct (has_key "error" _); split; intros; done.
  - destruct (has_key "error" _); split; intros; done.
  - intros k v Hk.
    erewrite determine_status_content;
      [| exact Hread | exact Hsize | reflexivity].
    unfold has_key. by rewrite lookup_insert_ne.
Qed.

(** C2, as the code has it: a zero-byte file that is accessible and
    readable gets the status UNKNOWN and the warning of the empty file
    (["Arquivo vazio"]), whatever its extension and whatever its validator
    reports.  An accessible file that is not readable is CORRUPTED and gets
    no warning, whatever its size, so also when it has zero bytes. *)
Theorem C2_empty_readable_is_unknown (w : World) (file_path : string)
    (i i' : Interp) (result : FileRecord) :
  check_file_integrity w file_path i = (inr result, i') →
  is_accessible result = true →
  (is_readable result = true → file_size result = 0 →
   integrity_status result = Some "UNKNOWN" ∧
   warning result = Some "Arquivo vazio") ∧
  (is_readable result = false →
   integrity_status result = Some "CORRUPTED" ∧ warning result = None).
Proof.
  intros Heq Hacc.
  apply check_file_integrity_eq in Heq as [-> _].
  rewrite check_result_accessible in Hacc.
  destruct (check_result_fields w (pandas i') file_path Hacc)
    as (Hr & Hs & _).
  rewrite Hr, Hs.
  pose proof (basic_result_cases w file_path) as (_ & _ & _ & _ & _ & Hw & _).
  unfold check_result, determine_status. rewrite Hacc. simpl.
  split.
  - intros Hread Hsize. by rewrite Hread, Hsize.
  - intros Hread. by rewrite Hread.
Qed.

Lemma C2_empty_readable_is_unknown_witness :
  (integrity_status
     (the_record (check_file_integrity empty_readable "d/empty.json"
                    (Toy.start empty_readable Toy.no_pandas)))
   = Some "UNKNOWN" ∧
   warning
     (the_record (check_file_integrity empty_readable "d/empty.json"
                    (Toy.start empty_readable Toy.no_pandas)))
   = Some "Arquivo vazio") ∧
  (integrity_status
     (the_record (check_file_integrity empty_unreadable "d/empty.csv"
                    (Toy.start empty_unreadable Toy.no_pandas)))
   = Some "CORRUPTED" ∧
   warning
     (the_record (check_file_integrity empty_unreadable "d/empty.csv"
                    (Toy.start empty_unreadable Toy.no_pandas)))
   = None).
Proof.
  split.
  - apply (C2_empty_readable_is_unknown empty_readable "d/empty.json"
             (Toy.start empty_readable Toy.no_pandas)
             (check_file_integrity empty_readable "d/empty.json"
                (Toy.start empty_readable Toy.no_pandas)).2);
      vm_compute; reflexivity.
  - apply (C2_empty_readable_is_unknown empty_unreadable "d/empty.csv"
             (Toy.start empty_unreadable Toy.no_pandas)
             (check_file_integrity empty_unreadable "d/empty.csv"
                (Toy.start empty_unreadable Toy.no_pandas)).2);
      vm_compute; reflexivity.
Defined.

(** C2 as stated fails: a zero-byte file that is accessible but not readable
    is CORRUPTED, with no warning. *)
Lemma C2_counterexample :
  ∃ result i',
    check_file_integrity empty_unreadable "d/empty.csv"
      (Toy.start empty_unreadable Toy.no_pandas) = (inr result, i') ∧
    is_accessible result = true ∧ is_readable result = false ∧
    file_size result = 0 ∧
    integrity_status result = Some "CORRUPTED" ∧ warning result = None.
Proof.
  eexists _, _. split; [vm_compute; reflexivity|]. by vm_compute.
Qed.

(** C5, where the code parts from it: a readable PDF of fourteen bytes,
    with its header and its [%%EOF], makes the probe of the last 1024 bytes
    raise; the validator records the ['error'] and the file is CORRUPTED. *)
Theorem C5_small_pdf_is_corrupted :
  ∃ result i',
    check_file_integrity small_pdf "d/a.pdf"
      (Toy.start small_pdf Toy.no_pandas) = (inr result, i') ∧
    is_accessible result = true ∧ is_readable result = true ∧
    file_size result = 14 ∧
    specific_checks result = Some (_check_pdf_file small_pdf "d/a.pdf") ∧
    _check_pdf_file small_pdf "d/a.pdf" !! "format_valid" = Some (VBool true) ∧
    _check_pdf_file small_pdf "d/a.pdf" !! "has_eof" = None ∧
    _check_pdf_file small_pdf "d/a.pdf" !! "error"
    = Some (VStr "[Errno 22] Invalid argument") ∧
    integrity_status result = Some "CORRUPTED".
Proof.
  eexists _, _. split; [vm_compute; reflexivity|]. by vm_compute.
Qed.



(** C8: when [ET.parse] raises a [ParseError], the XML validator records
    its message under ['xml_error'], sets [format_valid] to true and sets
    no ['error']; such a file, when accessible, readable and not empty, is
    INTACT.  The validator sets an ['error'] exactly when [xml.etree]
    cannot be imported or [ET.parse] raises an exception that is not a
    [ParseError]. *)
Theorem C8_xml_parse_error_is_soft (w : World) (file_path : string)
    (e : exn) :
  xml_etree_available w = true →
  ET_parse w file_path = inl e →
  is_class ParseError e = true →
  _check_xml_file w file_path !! "xml_error" = Some (VStr (str e)) ∧
  _check_xml_file w file_path !! "format_valid" = Some (VBool true) ∧
  _check_xml_file w file_path !! "error" = None ∧
  (∀ i i' result,
     check_file_integrity w file_path i = (inr result, i') →
     lower (suffix file_path) = ".xml" →
     is_accessible result = true →
     is_readable result = true →
     file_size result ≠ 0 →
     specific_checks result = Some (_check_xml_file w file_path) ∧
     integrity_status result = Some "INTACT") ∧
  (∀ w' p,
     is_Some (_check_xml_file w' p !! "error")
     ↔ xml_etree_available w' = false
       ∨ ∃ e', ET_parse w' p = inl e' ∧ is_class ParseError e' = false).
Proof.
  intros Hav Hparse Hcls.
  pose proof (xml_cases w file_path) as Hx. cbv zeta in Hx.
  rewrite Hav, Hparse, Hcls in Hx. destruct Hx as (_ & Herr & Hxml & Hfv).
  repeat (split; [done|]). split.
  - intros i i' result Heq Hext Hacc Hread Hsize.
    destruct (check_status_by_error _ _ _ _ _ Heq Hacc Hread Hsize)
      as [Hsp Hst].
    destruct (specific_of_ext w (pandas i') file_path) as (_ & _ & _ & Hxm).
    rewrite (Hxm Hext) in Hsp, Hst. split; [done|].
    rewrite Hst. unfold has_key. by rewrite Herr.
  - intros w' p. pose proof (xml_cases w' p) as Hx. cbv zeta in Hx.
    destruct (xml_etree_available w').
    + destruct (ET_parse w' p) as [e'|root].
      * destruct Hx as [_ Hx].
        destruct (is_class ParseError e') eqn:Hc; destruct Hx as (-> & _).
        -- split; [by intros [? ?]|]. intros [?|(e'' & [= <-] & ?)]; congruence.
        -- split; [|eauto]. intros _. right. eauto.
      * destruct Hx as (-> & _).
        split; [by intros [? ?]|]. intros [?|(e'' & ? & ?)]; done.
    + destruct Hx as (-> & _). split; eauto.
Qed.

Lemma C8_xml_parse_error_is_soft_witness :
  _check_xml_file broken_document "d/a.xml" !! "xml_error"
  = Some (VStr (str Toy.not_well_formed)) ∧
  _check_xml_file broken_document "d/a.xml" !! "error" = None ∧
  integrity_status
    (the_record (check_file_integrity broken_document "d/a.xml"
                   (Toy.start broken_document Toy.no_pandas)))
  = Some "INTACT".
Proof.
  destruct (C8_xml_parse_error_is_soft broken_document "d/a.xml"
              Toy.not_well_formed)
    as (Hxml & _ & Herr & Hst & _); [reflexivity..|].
  split; [exact Hxml|]. split; [exact Herr|].
  apply (Hst (Toy.start broken_document Toy.no_pandas)
             (check_file_integrity broken_document "d/a.xml"
                (Toy.start broken_document Toy.no_pandas)).2);
    [vm_compute; reflexivity | reflexivity | reflexivity | reflexivity
    | vm_compute; discriminate].
Defined.

(** C10: a [.py] file that is accessible, readable and not empty, and whose
    bytes are not valid UTF-8, is CORRUPTED: reading it raises
    [UnicodeDecodeError], which is not a [SyntaxError], so the validator
    records it as ['error'] and leaves [format_valid] false.  On the same
    bytes the text validator, and the CSV validator when [csv.reader]
    accepts the text, fall back to latin1 and set no ['error']. *)
Theorem C10_python_not_utf8_is_corrupted (w : World) (file_path : string)
    (i i' : Interp) (result : FileRecord) (f : bytes) :
  check_file_integrity w file_path i = (inr result, i') →
  lower (suffix file_path) = ".py" →
  is_accessible result = true →
  is_readable result = true →
  file_size result ≠ 0 →
  open_read w file_path = inr f →
  utf8_decode f = None →
  specific_checks result = Some (_check_python_file w file_path) ∧
  _check_python_file w file_path !! "error"
  = Some (VStr (str (unicode_error (codec_error w "utf-8" f)))) ∧
  is_class SyntaxError (unicode_error (codec_error w "utf-8" f)) = false ∧
  _check_python_file w file_path !! "format_valid" = Some (VBool false) ∧
  integrity_status result = Some "CORRUPTED" ∧
  _check_text_file w file_path !! "error" = None ∧
  _check_text_file w file_path !! "encoding" = Some (VStr "latin1") ∧
  (∀ rows,
     csv_reader w (universal_newlines (Byte.to_N <$> f))
       (detect_separator (take 1024 (universal_newlines (Byte.to_N <$> f))))
     = inr rows →
     _check_csv_file w file_path !! "error" = None ∧
     _check_csv_file w file_path !! "encoding" = Some (VStr "latin1")).
Proof.
  intros Heq Hext Hacc Hread Hsize Hopen Hutf.
  destruct (check_status_by_error _ _ _ _ _ Heq Hacc Hread Hsize)
    as [Hsp Hst].
  destruct (specific_of_ext w (pandas i') file_path) as (_ & _ & Hpy & _).
  rewrite (Hpy Hext) in Hsp, Hst.
  destruct (python_not_utf8 w file_path f Hopen Hutf) as (Herr & Hfv & _).
  destruct (text_not_utf8 w file_path f Hopen Hutf) as (Hterr & _ & Htenc).
  split; [done|]. split; [done|]. split; [done|]. split; [done|].
  split; [rewrite Hst; unfold has_key; by rewrite Herr|].
  split; [done|]. split; [done|].
  intros rows Hrows.
  destruct (csv_not_utf8 w file_path f rows Hopen Hutf Hrows)
    as (? & _ & ?). done.
Qed.

Lemma C10_python_not_utf8_is_corrupted_witness :
  utf8_decode (b_ "# caf" ++ [xe9; x0a]) = None ∧
  integrity_status
    (the_record (check_file_integrity latin1_script "d/n.py"
                   (Toy.start latin1_script Toy.no_pandas)))
  = Some "CORRUPTED".
Proof.
  split; [reflexivity|].
  destruct (C10_python_not_utf8_is_corrupted latin1_script "d/n.py"
              (Toy.start latin1_script Toy.no_pandas)
              (check_file_integrity latin1_script "d/n.py"
                 (Toy.start latin1_script Toy.no_pandas)).2
              (the_record (check_file_integrity latin1_script "d/n.py"
                             (Toy.start latin1_script Toy.no_pandas)))
              (b_ "# caf" ++ [xe9; x0a]))
    as (_ & _ & _ & _ & Hst & _);
    [vm_compute; reflexivity | reflexivity | reflexivity | reflexivity
    | vm_compute; discriminate | reflexivity | reflexivity | exact Hst].
Defined.

(** C7, as the code has it: for an [.xlsx] (or [.xls]) file that can be
    opened, [format_valid] is true exactly when the file starts with
    [PK\x03\x04] (or [D0 CF 11 E0]), and the basic tier sets no ['error'].
    When pandas and openpyxl cannot be imported the validator sets no
    ['error'] at all, so such a file, accessible, readable and not empty,
    is INTACT whatever its first bytes.  When they can be imported the
    advanced tier decides: the file is CORRUPTED exactly when
    [pd.ExcelFile] raises. *)
Theorem C7_excel_signature_is_soft (w : World) (file_path : string)
    (f signature : bytes) :
  open_read w file_path = inr f →
  (lower (suffix file_path) = ".xlsx" ∧ signature = sig_zip) ∨
  (lower (suffix file_path) = ".xls" ∧ signature = sig_ole) →
  (∀ imp,
     _check_excel_file w imp file_path !! "format_valid"
     = Some (VBool (startswith f signature))) ∧
  (∀ msg, _check_excel_file w (inl msg) file_path !! "error" = None) ∧
  (∀ version,
     is_Some (_check_excel_file w (inr version) file_path !! "error")
     ↔ ∃ e, pd_ExcelFile w file_path = inl e) ∧
  (∀ i i' result,
     check_file_integrity w file_path i = (inr result, i') →
     is_accessible result = true →
     is_readable result = true →
     file_size result ≠ 0 →
     specific_checks result
     = Some (_check_excel_file w (pandas i') file_path) ∧
     integrity_status result
     = Some match pandas i', pd_ExcelFile w file_path with
            | inr _, inl _ => "CORRUPTED"
            | _, _ => "INTACT"
            end).
Proof.
  intros Hopen Hext.
  assert (Hfv : ∀ imp, _check_excel_file w imp file_path !! "format_valid"
                       = Some (VBool (startswith f signature))).
  { intros imp.
    destruct (excel_cases w imp file_path f Hopen) as [-> _].
    destruct Hext as [[-> ->]|[-> ->]]; simpl; [|done].
    by rewrite orb_false_r. }
  assert (Herr : ∀ imp,
    has_key "error" (_check_excel_file w imp file_path)
    = match imp, pd_ExcelFile w file_path with
      | inr _, inl _ => true
      | _, _ => false
      end).
  { intros imp.
    destruct (excel_cases w imp file_path f Hopen) as [_ Hc].
    unfold has_key. destruct imp as [msg|version].
    - destruct Hc as [-> _]. by destruct (pd_ExcelFile w file_path).
    - destruct (pd_ExcelFile w file_path); [by destruct Hc as [? ->]|].
      by rewrite Hc. }
  split; [done|]. split; [|split].
  - intros msg. apply has_key_false. by rewrite Herr.
  - intros version. rewrite <- has_key_true, Herr.
    destruct (pd_ExcelFile w file_path); split; eauto; try done.
    by intros [? ?].
  - intros i i' result Heq Hacc Hread Hsize.
    destruct (check_status_by_error _ _ _ _ _ Heq Hacc Hread Hsize)
      as [Hsp Hst].
    destruct (specific_of_ext w (pandas i') file_path) as (Hxl & _).
    rewrite Hxl in Hsp, Hst by (destruct Hext as [[? _]|[? _]]; auto).
    split; [done|]. rewrite Hst, Herr.
    by destruct (pandas i'), (pd_ExcelFile w file_path).
Qed.

Lemma C7_excel_signature_is_soft_witness :
  startswith (b_ "hello") sig_zip = false ∧
  _check_excel_file odd_workbook Toy.no_pandas "d/x.xlsx" !! "format_valid"
  = Some (VBool false) ∧
  _check_excel_file odd_workbook Toy.no_pandas "d/x.xlsx" !! "error" = None ∧
  integrity_status
    (the_record (check_file_integrity odd_workbook "d/x.xlsx"
                   (Toy.start odd_workbook Toy.no_pandas)))
  = Some "INTACT".
Proof.
  split; [reflexivity|].
  destruct (C7_excel_signature_is_soft odd_workbook "d/x.xlsx"
              (b_ "hello") sig_zip)
    as (Hfv & Herr & _ & Hst); [reflexivity | left; split; reflexivity |].
  split; [exact (Hfv Toy.no_pandas)|]. split; [exact (Herr _)|].
  destruct (Hst (Toy.start odd_workbook Toy.no_pandas)
              (check_file_integrity odd_workbook "d/x.xlsx"
                 (Toy.start odd_workbook Toy.no_pandas)).2
              (the_record (check_file_integrity odd_workbook "d/x.xlsx"
                             (Toy.start odd_workbook Toy.no_pandas))))
    as [_ Hs];
    [vm_compute; reflexivity | reflexivity | reflexivity
    | vm_compute; discriminate | exact Hs].
Defined.

(** C7 as stated fails: with pandas and openpyxl installed, a readable
    [.xlsx] file of five bytes that do not start with [PK\x03\x04] is
    CORRUPTED, because [pd.ExcelFile] refuses it. *)
Lemma C7_counterexample :
  ∃ result i',
    check_file_integrity odd_workbook "d/x.xlsx"
      (Toy.start odd_workbook (inr "2.2.0")) = (inr result, i') ∧
    open_read odd_workbook "d/x.xlsx" = inr (b_ "hello") ∧
    startswith (b_ "hello") sig_zip = false ∧
    is_accessible result = true ∧ is_readable result = true ∧
    file_size result = 5 ∧
    _check_excel_file odd_workbook (inr "2.2.0") "d/x.xlsx" !! "error"
    = Some (VStr ("Erro na análise Excel: " +:+ str Toy.unknown_workbook)) ∧
    integrity_status result = Some "CORRUPTED".
Proof.
  eexists _, _. split; [vm_compute; reflexivity|]. by vm_compute.
Qed.

(** C4 on a script that is not UTF-8. *)
Lemma C4_corrupted_iff_error_witness :
  ∃ specific,
    specific_checks
      (the_record (check_file_integrity latin1_script "d/n.py"
                     (Toy.start latin1_script Toy.no_pandas)))
    = Some specific ∧
    is_Some (specific !! "error") ∧
    integrity_status
      (the_record (check_file_integrity latin1_script "d/n.py"
                     (Toy.start latin1_script Toy.no_pandas)))
    = Some "CORRUPTED".
Proof.
  destruct (C4_corrupted_iff_error latin1_script "d/n.py"
              (Toy.start latin1_script Toy.no_pandas)
              (check_file_integrity latin1_script "d/n.py"
                 (Toy.start latin1_script Toy.no_pandas)).2
              (the_record (check_file_integrity latin1_script "d/n.py"
                             (Toy.start latin1_script Toy.no_pandas))))
    as (specific & Hsp & Hof & Hiff & _);
    [vm_compute; reflexivity | reflexivity | reflexivity
    | vm_compute; discriminate |].
  exists specific. split; [exact Hsp|].
  assert (Hst : integrity_status
    (the_record (check_file_integrity latin1_script "d/n.py"
                   (Toy.start latin1_script Toy.no_pandas)))
    = Some "CORRUPTED") by (vm_compute; reflexivity).
  split; [exact (proj1 Hiff Hst) | exact Hst].
Defined.





(** C1, as the code has it: after a scan by [FileIntegrityChecker] or by
    [CustomFileChecker] that starts from a fresh checker, [total_files] is
    the number of records, each of the three status counters is the number
    of records with its status, and [total_files] is their sum plus the
    number of records with status UNKNOWN, for which the summary has no
    counter. *)
Theorem C1_counters_partition_total (w : World) (dirs types : list string)
    (fmt : string) (auto rec : bool) (imp : imports)
    (con wr : list string) :
  partitioned
    (self (scan_directories w
             {| self := init_checker w dirs fmt auto; pandas := imp;
                console := con; written := wr |}).2) ∧
  partitioned
    (self (custom_scan_directories w
             {| self := init_custom_checker w dirs rec types auto;
                pandas := imp; console := con; written := wr |}).2).
Proof.
  split; apply counted_partitioned.
  - match goal with
    | |- counted (scan_directories w ?i0).2 =>
      pose proof (wp_scan_directories w i0) as H
    end.
    unfold wp in H.
    destruct (scan_directories w _) as [[e|u] i]; simpl;
      [destruct H; by apply counted_init | by apply H, counted_init].
  - match goal with
    | |- counted (custom_scan_directories w ?i0).2 =>
      pose proof (wp_custom_scan_directories w i0) as H
    end.
    unfold wp in H.
    destruct (custom_scan_directories w _) as [[e|u] i]; simpl;
      by apply H, counted_init.
Qed.

(** C1 as stated fails: after the scan of a directory that holds one empty
    readable file, [total_files] is 1 and the three status counters, the
    only ones of the summary, are 0. *)
Lemma C1_counterexample :
  total_files (summary (self (scan_directories empty_readable
                 (Toy.start empty_readable Toy.no_pandas)).2)) = 1 ∧
  intact_files (summary (self (scan_directories empty_readable
                  (Toy.start empty_readable Toy.no_pandas)).2))
  + corrupted_files (summary (self (scan_directories empty_readable
                       (Toy.start empty_readable Toy.no_pandas)).2))
  + inaccessible_files (summary (self (scan_directories empty_readable
                          (Toy.start empty_readable Toy.no_pandas)).2))
  = 0 ∧
  (integrity_status <$>
     results (self (scan_directories empty_readable
                      (Toy.start empty_readable Toy.no_pandas)).2))
  = [Some "UNKNOWN"].
Proof. by vm_compute. Qed.

(* ================================================================== *)
(** ** More of the validators                                          *)
(* ================================================================== *)

(** The registry, for the other extensions. *)
Lemma specific_of_ext_more w imp p :
  let ext := lower (suffix p) in
  (ext = ".csv" → specific_of w imp p = _check_csv_file w p) ∧
  (ext = ".json" → specific_of w imp p = _check_json_file w p) ∧
  (ext = ".txt" → specific_of w imp p = _check_text_file w p) ∧
  (ext = ".sql" → specific_of w imp p = _check_sql_file w p) ∧
  (ext = ".zip" → specific_of w imp p = _check_zip_file w p) ∧
  (ext = ".rar" → specific_of w imp p = _check_rar_file w p).
Proof.
  unfold specific_of, file_handlers. simpl.
  repeat split; intros H; rewrite H; by simplify_map_eq.
Qed.

Lemma specific_of_unregistered w imp p :
  lower (suffix p) ∉ registered → specific_of w imp p = unknown_format.
Proof.
  intros Hext. unfold specific_of.
  assert (H : file_handlers w imp !! lower (suffix p) = None)
    by (apply not_elem_of_list_to_map_1; exact Hext).
  by rewrite H.
Qed.

(** X1: the text validator reads any file that can be opened: it sets no
    ['error'] and [format_valid] is true; the encoding it reports is utf-8
    when the bytes are valid UTF-8 and latin1 otherwise, so the last two
    encodings of its list are never used. *)
Theorem X1_text_validator_accepts_any_bytes (w : World) (file_path : string)
    (f : bytes) :
  open_read w file_path = inr f →
  _check_text_file w file_path !! "error" = None ∧
  _check_text_file w file_path !! "format_valid" = Some (VBool true) ∧
  _check_text_file w file_path !! "encoding"
  = Some (VStr match utf8_decode f with
               | Some _ => "utf-8"
               | None => "latin1"
               end) ∧
  _check_text_file w file_path !! "lines_count"
  = Some (VInt (len (readlines (universal_newlines
       (default (Byte.to_N <$> f) (utf8_decode f)))))).
Proof.
  intros Hopen. destruct (utf8_decode f) as [t|] eqn:Hutf.
  - unfold _check_text_file, encodings.
    apply run_dict_wp. simpl. unfold read_text, decode. simpl.
    wp_dict; by simplify_map_eq.
  - unfold _check_text_file, encodings.
    apply run_dict_wp. simpl. unfold read_text, decode. simpl.
    wp_dict; by simplify_map_eq.
Qed.

Lemma X1_text_validator_accepts_any_bytes_witness :
  _check_text_file latin1_script "d/n.py" !! "encoding"
  = Some (VStr "latin1").
Proof.
  destruct (X1_text_validator_accepts_any_bytes latin1_script "d/n.py"
              (b_ "# caf" ++ [xe9; x0a])) as (_ & _ & Henc & _);
    [reflexivity | exact Henc].
Defined.

(** X2: the separator the CSV validator detects is one of comma, semicolon,
    tab and pipe, none of the four occurs more often in the sample, and it
    is the comma unless another one occurs strictly more often than the
    comma. *)
Theorem X2_detect_separator_is_most_frequent (sample : text) :
  detect_separator sample ∈ [44; 59; 9; 124]%N ∧
  (∀ sep, sep ∈ [44; 59; 9; 124]%N →
          count_char sep sample ≤ count_char (detect_separator sample) sample) ∧
  ((∀ sep, sep ∈ [59; 9; 124]%N →
           count_char sep sample ≤ count_char 44 sample) →
   detect_separator sample = 44%N).
Proof.
  unfold detect_separator. simpl.
  repeat match goal with
         | |- context [if ?a <? ?b then _ else _] =>
           lazymatch a with
           | context [if _ then _ else _] => fail
           | _ => destruct (Z.ltb_spec a b)
           end
         end;
    (split; [set_solver|]);
    (split;
     [ intros sep Hsep;
       repeat match goal with
              | H : _ ∈ _ :: _ |- _ => apply elem_of_cons in H as [->|H]
              | H : _ ∈ [] |- _ => by apply elem_of_nil in H
              end; lia
     | intros Hmax;
       pose proof (Hmax 59%N ltac:(set_solver));
       pose proof (Hmax 9%N ltac:(set_solver));
       pose proof (Hmax 124%N ltac:(set_solver));
       first [done | lia] ]).
Qed.


(** X4: when the integrity test of a ZIP archive names a bad member, the
    validator records [is_corrupted] as true and the name of the member,
    but sets no ['error']: the archive, accessible, readable and not empty,
    is classified INTACT. *)
Theorem X4_zip_bad_member_is_intact (w : World) (file_path name : string)
    (zip_file : ZipFile) :
  ZipFile_open w file_path = inr zip_file →
  testzip zip_file = inr (Some name) →
  _check_zip_file w file_path !! "is_corrupted" = Some (VBool true) ∧
  _check_zip_file w file_path !! "format_valid" = Some (VBool true) ∧
  _check_zip_file w file_path !! "error" = None ∧
  (name ≠ "" →
   _check_zip_file w file_path !! "corrupted_file" = Some (VStr name)) ∧
  (∀ i i' result,
     check_file_integrity w file_path i = (inr result, i') →
     lower (suffix file_path) = ".zip" →
     is_accessible result = true →
     is_readable result = true →
     file_size result ≠ 0 →
     integrity_status result = Some "INTACT").
Proof.
  intros Hopen Htest.
  assert (Hd : _check_zip_file w file_path !! "is_corrupted" = Some (VBool true) ∧
               _check_zip_file w file_path !! "format_valid" = Some (VBool true) ∧
               _check_zip_file w file_path !! "error" = None ∧
               (name ≠ "" →
                _check_zip_file w file_path !! "corrupted_file"
                = Some (VStr name))).
  { unfold _check_zip_file. apply run_dict_wp.
    wp_dict; simplify_map_eq; repeat split; try done;
      intros Hne; exfalso; apply Hne; apply String.eqb_eq;
      by destruct (String.eqb name ""). }
  destruct Hd as (Hc & Hfv & Herr & Hname).
  repeat (split; [done|]).
  intros i i' result Heq Hext Hacc Hread Hsize.
  destruct (check_status_by_error _ _ _ _ _ Heq Hacc Hread Hsize)
    as [_ Hst].
  destruct (specific_of_ext_more w (pandas i') file_path)
    as (_ & _ & _ & _ & Hzip & _).
  rewrite (Hzip Hext) in Hst. rewrite Hst. unfold has_key. by rewrite Herr.
Qed.

(** X5: the RAR validator looks at the signature only: for a file that can
    be opened it sets no ['error'], and [format_valid] is true exactly when
    the file starts with the seven bytes [Rar!\x1a\x07\x00]. *)
Theorem X5_rar_signature (w : World) (file_path : string) (f : bytes) :
  open_read w file_path = inr f →
  _check_rar_file w file_path !! "error" = None ∧
  _check_rar_file w file_path !! "format_valid"
  = Some (VBool (startswith f sig_rar)) ∧
  _check_rar_file w file_path !! "rar_signature"
  = (if startswith f sig_rar then Some (VBool true) else None).
Proof.
  intros Hopen. unfold _check_rar_file.
  rewrite <- (startswith_take 7 f sig_rar) by (simpl; lia).
  apply run_dict_wp.
  wp_dict;
    repeat match goal with
           | H : startswith _ _ = _ |- _ => rewrite H; clear H
           end; by simplify_map_eq.
Qed.

Lemma X5_rar_signature_witness :
  _check_rar_file small_pdf "d/a.pdf" !! "format_valid" = Some (VBool false).
Proof.
  destruct (X5_rar_signature small_pdf "d/a.pdf" Toy.pdf_small)
    as (_ & Hfv & _); [reflexivity | exact Hfv].
Defined.

(** X6: the SQL validator sets an ['error'] exactly when the file cannot be
    opened or its bytes are not valid UTF-8; otherwise [format_valid] is
    true and the statement count is the number of occurrences of the six
    keywords in the upper-cased content. *)
Theorem X6_sql_error_iff_unreadable_as_utf8 (w : World)
    (file_path : string) :
  (is_Some (_check_sql_file w file_path !! "error")
   ↔ (∃ e, open_read w file_path = inl e)
     ∨ (∃ f, open_read w file_path = inr f ∧ utf8_decode f = None)) ∧
  (∀ f t,
     open_read w file_path = inr f → utf8_decode f = Some t →
     _check_sql_file w file_path !! "format_valid" = Some (VBool true) ∧
     _check_sql_file w file_path !! "statements_count"
     = Some (VInt (foldr (λ k n,
                      count_sub (str_upper w (universal_newlines t)) (t_ k) + n)
                     0 sql_keywords))).
Proof.
  split.
  - unfold _check_sql_file, read_text, decode. simpl.
    apply run_dict_wp.
    destruct (open_read w file_path) as [e|f] eqn:Hopen;
      [|destruct (utf8_decode f) as [t|] eqn:Hutf];
      wp_dict; simplify_map_eq; split; intros H;
      first [ by eauto
            | by destruct H
            | destruct H as [[? ?]|(? & ? & ?)]; congruence ].
  - intros f t Hopen Hutf.
    unfold _check_sql_file, read_text, decode. simpl.
    apply run_dict_wp. wp_dict; by simplify_map_eq.
Qed.

(** X7: a Python source that does not compile is not an error of the file:
    on a [SyntaxError] the validator sets [format_valid] to true, leaves
    [syntax_valid] false, records the message under ['syntax_error'] and
    sets no ['error'], so the file is INTACT. *)
Theorem X7_python_syntax_error_is_soft (w : World) (file_path : string)
    (f : bytes) (t : text) (e : exn) :
  open_read w file_path = inr f →
  utf8_decode f = Some t →
  py_compile w (universal_newlines t) file_path = inl e →
  is_class SyntaxError e = true →
  _check_python_file w file_path !! "error" = None ∧
  _check_python_file w file_path !! "format_valid" = Some (VBool true) ∧
  _check_python_file w file_path !! "syntax_valid" = Some (VBool false) ∧
  _check_python_file w file_path !! "syntax_error" = Some (VStr (str e)) ∧
  (∀ i i' result,
     check_file_integrity w file_path i = (inr result, i') →
     lower (suffix file_path) = ".py" →
     is_accessible result = true →
     is_readable result = true →
     file_size result ≠ 0 →
     integrity_status result = Some "INTACT").
Proof.
  intros Hopen Hutf Hcomp Hcls.
  assert (Hd : _check_python_file w file_path !! "error" = None ∧
               _check_python_file w file_path !! "format_valid"
               = Some (VBool true) ∧
               _check_python_file w file_path !! "syntax_valid"
               = Some (VBool false) ∧
               _check_python_file w file_path !! "syntax_error"
               = Some (VStr (str e))).
  { unfold _check_python_file, read_text, decode. simpl.
    apply run_dict_wp.
    wp_dict; simplify_map_eq; first [done | congruence]. }
  destruct Hd as (Herr & Hfv & Hsv & Hse).
  repeat (split; [done|]).
  intros i i' result Heq Hext Hacc Hread Hsize.
  destruct (check_status_by_error _ _ _ _ _ Heq Hacc Hread Hsize)
    as [_ Hst].
  destruct (specific_of_ext w (pandas i') file_path) as (_ & _ & Hpy & _).
  rewrite (Hpy Hext) in Hst. rewrite Hst. unfold has_key. by rewrite Herr.
Qed.

Lemma X4_zip_bad_member_is_intact_witness :
  _check_zip_file bad_archive "d/a.zip" !! "is_corrupted" = Some (VBool true) ∧
  integrity_status
    (the_record (check_file_integrity bad_archive "d/a.zip"
                   (Toy.start bad_archive Toy.no_pandas)))
  = Some "INTACT".
Proof.
  destruct (X4_zip_bad_member_is_intact bad_archive "d/a.zip" "a.txt"
              {| testzip := inr (Some "a.txt"); namelist := ["a.txt"] |})
    as (Hc & _ & _ & _ & Hst); [reflexivity | reflexivity |].
  split; [exact Hc|].
  apply (Hst (Toy.start bad_archive Toy.no_pandas)
             (check_file_integrity bad_archive "d/a.zip"
                (Toy.start bad_archive Toy.no_pandas)).2);
    [vm_compute; reflexivity | reflexivity | reflexivity | reflexivity
    | vm_compute; discriminate].
Defined.

Lemma X7_python_syntax_error_is_soft_witness :
  _check_python_file bad_script "d/n.py" !! "syntax_error"
  = Some (VStr "invalid syntax (n.py, line 1)") ∧
  integrity_status
    (the_record (check_file_integrity bad_script "d/n.py"
                   (Toy.start bad_script Toy.no_pandas)))
  = Some "INTACT".
Proof.
  destruct (X7_python_syntax_error_is_soft bad_script "d/n.py" (b_ "def")
              (t_ "def") (Exn SyntaxError "invalid syntax (n.py, line 1)"))
    as (_ & _ & _ & Hse & Hst); [reflexivity..|].
  split; [exact Hse|].
  apply (Hst (Toy.start bad_script Toy.no_pandas)
             (check_file_integrity bad_script "d/n.py"
                (Toy.start bad_script Toy.no_pandas)).2);
    [vm_compute; reflexivity | reflexivity | reflexivity | reflexivity
    | vm_compute; discriminate].
Defined.

(* ================================================================== *)
(** ** More of the prober and of the decision                          *)
(* ================================================================== *)

(** X8: the prober fails closed.  [_check_basic_accessibility] never
    raises and touches nothing but the log; in its record [is_accessible]
    is true exactly when no error was recorded, and a readable file is an
    accessible one.  A missing path gives the error ["Arquivo não
    encontrado"] with size 0 and logs nothing; an exception of [os.stat]
    gives its message as the error. *)
Theorem X8_prober_fails_closed (w : World) (file_path : string) (i : Interp) :
  ∃ result lines,
    _check_basic_accessibility w file_path i
    = (inr result, add_lines lines i) ∧
    (is_accessible result = true ↔ error result = None) ∧
    (is_readable result = true → is_accessible result = true) ∧
    (os_path_exists w file_path = false →
     error result = Some "Arquivo não encontrado" ∧ file_size result = 0 ∧
     lines = []) ∧
    (∀ e, os_path_exists w file_path = true →
          os_stat w file_path = inl e →
          error result = Some (str e) ∧ is_accessible result = false).
Proof.
  unfold _check_basic_accessibility, probe.
  destruct (os_path_exists w file_path) eqn:Hex; simpl.
  2:{ eexists _, []. rewrite add_lines_nil.
      split; [reflexivity|]. simpl. by repeat split. }
  unfold mbind, M_bind, call; simpl.
  destruct (os_stat w file_path) as [e|st]; simpl.
  { eexists _, [_]. split; [reflexivity|]. simpl.
    repeat split; try done; intros; by simplify_eq. }
  destruct (fromtimestamp_isoformat w (st_mtime st)) as [e|iso]; simpl.
  { eexists _, [_]. split; [reflexivity|]. simpl. by repeat split. }
  destruct (os_access_R_OK w file_path); simpl;
    (eexists _, []; rewrite add_lines_nil; split; [reflexivity|]; simpl;
     by repeat split).
Qed.

(** X9: a file whose extension is not in the registry gets the marker of
    the unknown format as [specific_checks] and, when accessible, readable
    and not empty, the status INTACT, whatever it holds. *)
Theorem X9_unregistered_extension_is_intact (w : World) (file_path : string)
    (i i' : Interp) (result : FileRecord) :
  check_file_integrity w file_path i = (inr result, i') →
  lower (suffix file_path) ∉ registered →
  is_accessible result = true →
  is_readable result = true →
  file_size result ≠ 0 →
  specific_checks result = Some unknown_format ∧
  unknown_format !! "format" = Some (VStr "unknown") ∧
  integrity_status result = Some "INTACT".
Proof.
  intros Heq Hext Hacc Hread Hsize.
  destruct (check_status_by_error _ _ _ _ _ Heq Hacc Hread Hsize)
    as [Hsp Hst].
  rewrite (specific_of_unregistered _ _ _ Hext) in Hsp, Hst.
  split; [done|]. split; [done|]. exact Hst.
Qed.

Lemma X9_unregistered_extension_is_intact_witness :
  integrity_status
    (the_record (check_file_integrity files_of_all_kinds "d/c.dat"
                   (Toy.start files_of_all_kinds Toy.no_pandas)))
  = Some "INTACT".
Proof.
  apply (X9_unregistered_extension_is_intact files_of_all_kinds "d/c.dat"
           (Toy.start files_of_all_kinds Toy.no_pandas)
           (check_file_integrity files_of_all_kinds "d/c.dat"
              (Toy.start files_of_all_kinds Toy.no_pandas)).2);
    [vm_compute; reflexivity | | reflexivity | reflexivity
    | vm_compute; discriminate].
  intros H. apply list_elem_of_In in H. vm_compute in H.
  repeat destruct H as [H|H]; try discriminate H. exact H.
Defined.

(* ================================================================== *)
(** ** The negotiation of the Excel enhancement                        *)
(* ================================================================== *)

Lemma wp_install_step w auto (Q : bool * string → Interp → Prop) E i :
  (∀ a i', install_step a.1 i i' → Q a i') →
  (∀ e i', install_step false i i' → E e i') →
  wp (install_excel_dependencies w auto) Q E i.
Proof.
  intros HQ HE. unfold install_excel_dependencies.
  apply wp_bind, wp_check_pandas_available.
  destruct (pandas i) as [msg|version] eqn:Hp; simpl.
  - destruct auto; simpl; wp_auto;
      first [apply HQ | apply HE]; unfold install_step; simpl;
      repeat split; try done; try (intros; congruence); eauto;
      intros _;
      match goal with
      | H : match ?s with inl _ => _ | inr _ => _ end = _ |- _ =>
        destruct s; simplify_eq; eauto
      end.
  - apply wp_ret, HQ. repeat split; eauto.
Qed.

Lemma wp_enhancement_step w (Q : unit → Interp → Prop) E i :
  (∀ a i', enhancement_step i i' → Q a i') →
  (∀ e i', enhancement_step i i' → E e i') →
  wp (_check_excel_enhancement w) Q E i.
Proof.
  intros HQ HE. unfold _check_excel_enhancement.
  apply wp_bind, wp_get.
  destruct (excel_enhancement_checked (self i)) eqn:Hchk.
  { apply wp_ret, HQ. unfold enhancement_step, same_settings.
    repeat split; eauto using untouched_refl. }
  apply wp_bind, wp_modify, wp_bind, wp_check_pandas_available. simpl.
  destruct (pandas i) as [msg|version] eqn:Hp; simpl.
  2:{ apply wp_modify, HQ. unfold enhancement_step, same_settings. simpl.
      repeat split; try done; try (intros; congruence); eauto. }
  apply wp_bind, wp_log, wp_bind, wp_install_step.
  - intros [success message] i' (Hself & Hwr & _ & Hsucc). simpl in *.
    destruct success; wp_steps; apply HQ;
      unfold enhancement_step, same_settings, untouched; simpl;
      rewrite ?Hself, ?Hwr; simpl;
      repeat split; try done; try (intros; congruence); eauto.
  - intros e i' (Hself & Hwr & _ & _). simpl in *. apply HE.
    unfold enhancement_step, same_settings, untouched; simpl;
      rewrite ?Hself, ?Hwr; simpl.
    assert (Hp' : pandas i' = pandas i ∨ True) by by right.
    repeat split; try done; try (intros; congruence); eauto.
Qed.

Lemma wp_check_step w p (Q : FileRecord → Interp → Prop) E i :
  (∀ i', check_step (is_accessible (basic_result w p) && is_excel p) i i' →
         Q (check_result w (pandas i') p) i') →
  (∀ e i', untouched i i' → same_settings (self i) (self i') →
           excel_enhancement_checked (self i') = true → E e i') →
  wp (check_file_integrity w p) Q E i.
Proof.
  intros HQ HE. unfold check_file_integrity.
  apply wp_bind, wp_log, wp_bind, wp_basic_accessibility. intros l0.
  unfold check_result in HQ.
  destruct (is_accessible (basic_result w p)) eqn:Hacc;
    cbn [negb andb] in *; cbv zeta.
  - apply wp_bind, wp_calculate_file_hash. intros l1.
    apply wp_bind, wp_calculate_file_hash. intros l2.
    apply wp_bind.
    assert (Hend : ∀ i', check_step (is_excel p) i i' →
      wp (i0 ← get;
          mret (determine_status
            match file_handlers w (pandas i0) !! lower (suffix p) with
            | Some handler => set_specific_checks (handler p)
                (set_sha256_hash (digest w p "sha256")
                   (set_md5_hash (digest w p "md5") (basic_result w p)))
            | None => set_specific_checks unknown_format
                (set_sha256_hash (digest w p "sha256")
                   (set_md5_hash (digest w p "md5") (basic_result w p)))
            end)) Q E i').
    { intros i' Hi'. apply wp_bind, wp_get, wp_ret.
      specialize (HQ i' Hi'). unfold specific_of in HQ.
      by destruct (file_handlers w (pandas i') !! lower (suffix p)). }
    change (in_list (lower (suffix p)) [".xlsx"; ".xls"]) with (is_excel p).
    destruct (is_excel p); simpl.
    + apply wp_bind, wp_enhancement_step.
      * intros _ i' (Hu & Hs & Hx & Hc & Hid & Hm & He).
        apply wp_modify, Hend.
        unfold check_step, same_settings, untouched in *. simpl in *.
        destruct Hu as (? & ? & ? & ? & ? & ?).
        destruct Hs as (? & ? & ? & ? & ?).
        repeat split; try done; try lia; eauto;
          match goal with
          | H : _ ∨ excel_enhancement_checked _ = true |- _ =>
            destruct H as [?|Hchk]; [done|]; by rewrite (Hid Hchk)
          end.
      * intros e i' (Hu & Hs & _ & Hc & _). apply HE; done.
    + apply wp_ret, Hend. unfold check_step, same_settings. simpl.
      repeat split; try done; try lia; eauto.
  - apply wp_ret, HQ. unfold check_step, same_settings. simpl.
    repeat split; try done; try lia; eauto.
Qed.




(** X12: checking the same path twice in one run, on files that did not
    change in between, gives the same record: after the first call, which
    may have installed pandas and has set the flag of the enhancement
    check, a second call of [check_file_integrity] on the path returns a
    record equal to the first. *)
Theorem X12_check_twice_same_record (w : World) (file_path : string)
    (i i1 i2 : Interp) (r1 r2 : FileRecord) :
  check_file_integrity w file_path i = (inr r1, i1) →
  check_file_integrity w file_path i1 = (inr r2, i2) →
  r2 = r1.
Proof.
  intros H1 H2.
  pose proof (wp_of_eq _ (λ r i', r = check_result w (pandas i') file_path ∧
      check_step (is_accessible (basic_result w file_path)
                  && is_excel file_path) i i') (λ _ _, True) _ _ _ H1)
    as [-> S1].
  { apply wp_check_step; auto. }
  pose proof (wp_of_eq _ (λ r i', r = check_result w (pandas i') file_path ∧
      check_step (is_accessible (basic_result w file_path)
                  && is_excel file_path) i1 i') (λ _ _, True) _ _ _ H2)
    as [-> S2].
  { apply wp_check_step; auto. }
  destruct S1 as (_ & _ & _ & Hc1 & _).
  destruct S2 as (_ & _ & _ & _ & Hsame & _).
  destruct Hsame as [-> _]; [|done].
  destruct (is_accessible (basic_result w file_path) && is_excel file_path);
    [right; by rewrite Hc1 | by left].
Qed.

Lemma X12_check_twice_same_record_witness :
  the_record (check_file_integrity odd_workbook "d/x.xlsx"
                (check_file_integrity odd_workbook "d/x.xlsx"
                   (Toy.start odd_workbook Toy.no_pandas)).2)
  = the_record (check_file_integrity odd_workbook "d/x.xlsx"
                  (Toy.start odd_workbook Toy.no_pandas)).
Proof.
  apply (X12_check_twice_same_record odd_workbook "d/x.xlsx"
           (Toy.start odd_workbook Toy.no_pandas)
           (check_file_integrity odd_workbook "d/x.xlsx"
              (Toy.start odd_workbook Toy.no_pandas)).2
           (check_file_integrity odd_workbook "d/x.xlsx"
              (check_file_integrity odd_workbook "d/x.xlsx"
                 (Toy.start odd_workbook Toy.no_pandas)).2).2);
    vm_compute; reflexivity.
Defined.

(* ================================================================== *)
(** ** More of the scans                                               *)
(* ================================================================== *)

Lemma same_settings_refl c : same_settings c c.
Proof. by repeat split. Qed.

Lemma same_settings_trans c1 c2 c3 :
  same_settings c1 c2 → same_settings c2 c3 → same_settings c1 c3.
Proof. unfold same_settings. intuition congruence. Qed.

Lemma check_result_file_path w imp p : file_path (check_result w imp p) = p.
Proof.
  pose proof (basic_result_cases w p) as (Hp & _).
  unfold check_result, determine_status.
  repeat match goal with
         | |- context [if ?b then _ else _] => destruct b
         end; simpl; done.
Qed.

(** One file through the aggregator, whatever the check does. *)
Lemma wp_count_step w p i :
  wp (count_file w p) (λ _, count_step w p i) (λ _, count_step w p i) i.
Proof.
  unfold count_file. apply wp_bind, wp_check_step.
  - intros i1 (Hu & Hs & _).
    destruct (check_result_status w (pandas i1) p) as (s & Hst & _).
    apply wp_bind, wp_modify, wp_bind, wp_modify, wp_bind.
    unfold status_of. simpl. rewrite Hst. apply wp_ret.
    destruct Hu as (Hres & _).
    repeat match goal with
           | |- context [if ?b then _ else _] => destruct b
           end;
      (apply wp_modify || apply wp_ret);
      (split; [exact Hs | right; exists (pandas i1); simpl; by rewrite Hres]).
  - intros e i1 (Hres & _) Hs _. split; [done | by left].
Qed.

Lemma wp_process_step w p i :
  wp (process_file w p) (λ _, count_step w p i) never i.
Proof.
  unfold process_file. apply wp_try, wp_bind.
  eapply wp_mono; [apply wp_count_step| |].
  - intros ? i1 H1. simpl. apply wp_bind, wp_get.
    apply wp_when; intros _; [by apply wp_log|done].
  - intros e i1 H1. by apply wp_log.
Qed.

Lemma grows_step w p i0 i i' : grows i0 i → count_step w p i i' → grows i0 i'.
Proof.
  intros [Hs Hp] [Hs' Hr]. split; [by eapply same_settings_trans|].
  destruct Hr as [->|[imp ->]]; [done|].
  by apply prefix_app_r.
Qed.

Lemma filtered_step w p i0 i i' :
  should_check_file (self i0) p = true →
  filtered i0 i → count_step w p i i' → filtered i0 i'.
Proof.
  intros Hp [Hs Hf] [Hs' Hr]. split; [by eapply same_settings_trans|].
  destruct Hr as [->|[imp ->]]; [done|].
  intros r [Hr|Hr%list_elem_of_singleton]%elem_of_app; [auto|].
  right. subst r. by rewrite check_result_file_path.
Qed.

(** X13: [FileIntegrityChecker.scan_directories] always returns, whatever
    the directories hold and whatever the checks of the files raise; it
    changes none of the settings of the checker, and the records that were
    there stay, in their order, at the front of the list. *)
Theorem X13_scan_always_returns (w : World) (i : Interp) :
  ∃ i', scan_directories w i = (inr (), i') ∧
        same_settings (self i) (self i') ∧
        results (self i) `prefix_of` results (self i').
Proof.
  destruct (wp_returns (scan_directories w) (λ _, grows i) i)
    as ([] & i' & Heq & Hg); [|exists i'; split; [done | exact Hg]].
  unfold scan_directories.
  apply wp_bind, wp_get, wp_bind, wp_log, wp_bind.
  eapply wp_mono; [apply (wp_for_each _ _ (grows i))| |done].
  - intros directory i1 _ H1. apply wp_bind, wp_log.
    destruct (os_path_exists w directory); simpl; [|by apply wp_log].
    apply wp_for_each; [|done]. intros [[root dirs] files] i2 _ H2.
    apply wp_for_each; [|done]. intros file i3 _ H3.
    apply wp_try. eapply wp_mono; [apply wp_count_step| |].
    + intros ? i4 H4. exact (grows_step _ _ _ _ _ H3 H4).
    + intros e i4 H4. apply wp_log.
      exact (grows_step _ _ _ _ _ H3 H4).
  - split; [apply same_settings_refl|done].
  - intros ? i1 H1. simpl. apply wp_bind, wp_get, wp_log. done.
Qed.

(** X14: the prompt fails once at most.  When a check raises, the flag
    [excel_enhancement_checked] is set in the state it leaves, so from that
    state no check raises: every later call of [check_file_integrity]
    returns a record. *)
Theorem X14_prompt_fails_once (w : World) (file_path : string)
    (i i' : Interp) (e : exn) :
  check_file_integrity w file_path i = (inl e, i') →
  excel_enhancement_checked (self i') = true ∧
  ∀ p, check_raises w p i' = false ∧
       ∃ result i'', check_file_integrity w p i' = (inr result, i'').
Proof.
  intros Heq.
  pose proof (wp_check_step w file_path (λ _ _, True)
                (λ _ i', excel_enhancement_checked (self i') = true) i) as H.
  unfold wp in H. rewrite Heq in H.
  assert (Hchk : excel_enhancement_checked (self i') = true) by auto.
  split; [done|]. intros p.
  assert (Hr : check_raises w p i' = false).
  { unfold check_raises, enhancement_raises. rewrite Hchk. simpl.
    by rewrite andb_false_r. }
  split; [done|]. by apply check_file_integrity_returns.
Qed.

Lemma X14_prompt_fails_once_witness :
  ∃ result i'',
    check_file_integrity closed_input "d/x.xlsx"
      (check_file_integrity closed_input "d/x.xlsx"
         (Toy.start closed_input Toy.no_pandas)).2 = (inr result, i'').
Proof.
  destruct (X14_prompt_fails_once closed_input "d/x.xlsx"
              (Toy.start closed_input Toy.no_pandas)
              (check_file_integrity closed_input "d/x.xlsx"
                 (Toy.start closed_input Toy.no_pandas)).2
              end_of_input) as [_ H]; [vm_compute; reflexivity|].
  exact (proj2 (H "d/x.xlsx")).
Defined.

(** X15: what a check that returns changes in the checker.  The counter
    [excel_files] goes up by one exactly when the file is accessible and
    its extension is [.xlsx] or [.xls], whatever its status; the records,
    the four counters of the statuses and the settings stay; and
    [enhanced_excel_analysis] becomes true only if pandas can be imported
    when the check ends. *)
Theorem X15_excel_files_counts_excel_checks (w : World) (file_path : string)
    (i i' : Interp) (result : FileRecord) :
  check_file_integrity w file_path i = (inr result, i') →
  excel_files (summary (self i'))
  = excel_files (summary (self i))
    + (if is_accessible result && is_excel file_path then 1 else 0) ∧
  untouched i i' ∧ same_settings (self i) (self i') ∧
  (enhanced_excel_analysis (summary (self i')) = true →
   enhanced_excel_analysis (summary (self i)) = true
   ∨ ∃ version, pandas i' = inr version).
Proof.
  intros Heq.
  pose proof (wp_of_eq _
    (λ r i', r = check_result w (pandas i') file_path ∧
       check_step (is_accessible (basic_result w file_path)
                   && is_excel file_path) i i') (λ _ _, True) _ _ _ Heq)
    as [-> S].
  { apply wp_check_step; auto. }
  rewrite check_result_accessible.
  destruct S as (Hu & Hs & Hx & _ & _ & _ & He). done.
Qed.

Lemma X15_excel_files_counts_excel_checks_witness :
  excel_files (summary (self (check_file_integrity odd_workbook "d/x.xlsx"
                 (Toy.start odd_workbook Toy.no_pandas)).2)) = 1.
Proof.
  destruct (X15_excel_files_counts_excel_checks odd_workbook "d/x.xlsx"
              (Toy.start odd_workbook Toy.no_pandas)
              (check_file_integrity odd_workbook "d/x.xlsx"
                 (Toy.start odd_workbook Toy.no_pandas)).2
              (the_record (check_file_integrity odd_workbook "d/x.xlsx"
                             (Toy.start odd_workbook Toy.no_pandas))))
    as [Hx _]; [vm_compute; reflexivity | exact Hx].
Defined.

(** X16: [CustomFileChecker.scan_directories] respects the filter: every
    record it adds is of a file [should_check_file] accepts, that is, the
    filter is empty or holds the lower-cased suffix of the path; this holds
    whether the scan returns or raises. *)
Theorem X16_custom_scan_respects_filter (w : World) (i : Interp) :
  Forall (λ r, r ∈ results (self i) ∨
               file_types (self i) = [] ∨
               lower (suffix (file_path r)) ∈ file_types (self i))
    (results (self (custom_scan_directories w i).2)).
Proof.
  apply Forall_forall.
  assert (H : wp (custom_scan_directories w) (λ _, filtered i)
                (λ _, filtered i) i).
  { unfold custom_scan_directories.
    apply wp_bind, wp_get, wp_bind, wp_log, wp_bind.
    eapply wp_mono with (E := λ _, filtered i);
      [apply (wp_for_each _ _ (filtered i))| |done].
    - intros directory i1 _ H1. apply wp_bind, wp_log.
      destruct (os_path_exists w directory); simpl; [|by apply wp_log].
      destruct (recursive (self i)).
      + apply wp_for_each; [|done]. intros [[root dirs] files] i2 _ H2.
        apply wp_for_each; [|done]. intros file i3 _ H3.
        apply wp_when; intros Hsc; [|done].
        eapply wp_mono; [apply wp_process_step| |done].
        intros ? i4 H4. exact (filtered_step _ _ _ _ _ Hsc H3 H4).
      + apply wp_try, wp_bind, wp_call.
        destruct (os_listdir w directory) as [e|items].
        * apply wp_on_class; intros _; [by apply wp_log|by apply wp_raise].
        * eapply wp_mono with (E := never);
            [apply (wp_for_each _ _ (filtered i)); [|done]
            |done|done].
          intros item i2 _ H2. apply wp_when; intros Hsc; [|done].
          apply andb_true_iff in Hsc as [_ Hsc].
          eapply wp_mono; [apply wp_process_step| |done].
          intros ? i4 H4. exact (filtered_step _ _ _ _ _ Hsc H2 H4).
    - split; [apply same_settings_refl|auto].
    - intros ? i1 H1. simpl. apply wp_bind, wp_get, wp_log. done. }
  unfold wp in H.
  assert (Hf : filtered i (custom_scan_directories w i).2)
    by (destruct (custom_scan_directories w i) as [[e|u] i']; exact H).
  destruct Hf as [_ Hf]. intros r Hr.
  destruct (Hf r Hr) as [?|Hsc]; [by left|right].
  unfold should_check_file in Hsc.
  destruct (file_types (self i)) as [|t types] eqn:Ht; [by left|right].
  unfold in_list in Hsc. apply existsb_exists in Hsc as (x & Hx & Heq).
  apply String.eqb_eq in Heq. subst x. by apply list_elem_of_In.
Qed.


